(** * Stonkulator: the indicator engine and the presentation builders

    A shallow embedding of [src/stonkulator.py] (the same three functions
    are repeated in [src/main.py]): [fetch_stock_data], which fetches a
    price history and adds the calculated columns, [create_stock_chart] and
    [create_stats_panel].

    Numbers.  The program computes on IEEE doubles.  The embedding keeps the
    structure of every computation and replaces a double by the exact value:
    a rational ([Q]) wherever the code only adds, subtracts, multiplies and
    divides, and a real ([R]) for the one quantity that goes through a square
    root (the volatility).  The special value NaN, which pandas uses as its
    "no value" marker, is kept explicit: a cell that may be NaN has type
    [option Q] and [None] is NaN.  Rounding is not modelled: what is proved
    of a calculated value is an equation between exact values, which the
    doubles follow up to rounding error, or a fact that needs no
    arithmetic (a comparison the code makes, a value it copies). *)

From Stdlib Require Import String DecimalString List Sorted ZArith QArith Qabs.
From Stdlib Require Import Qpower Qfield.
From Stdlib Require Import Lia Lqa.
From Stdlib Require Import Reals Qreals.
Import ListNotations.
Local Open Scope Q_scope.

(** Linear arithmetic over the rationals. *)
Ltac qlra := Lqa.lra.

(** ** The part of pandas the program calls *)

Module Pandas.

(** A cell of a float column: [None] is NaN. *)
Definition cell := option Q.

(** [Series.ewm(span=...)]: pandas turns the span into a centre of mass
    [com = (span - 1) / 2] and the centre of mass into the smoothing
    factor [alpha = 1 / (1 + com)]. *)
Definition com_of_span (span : Q) : Q := (span - 1) / 2.
Definition alpha_of_com (com : Q) : Q := 1 / (1 + com).
Definition alpha_of_span (span : Q) : Q := alpha_of_com (com_of_span span).

(** One turn of the loop of pandas' [ewm] kernel
    ([_libs/window/aggregations.pyx]) on an observation [cur], with
    [normalize] on and no NaN in the input:
<<
    old_wt *= old_wt_factor
    if weighted != cur:
        weighted = old_wt * weighted + new_wt * cur
        weighted /= (old_wt + new_wt)
    if adjust: old_wt += new_wt
    else:      old_wt = 1.
>>
    The state is the pair [(weighted, old_wt)].  The comparison
    [weighted != cur] is there to keep the average of a constant series
    constant on doubles. *)
Definition ewm_step (adjust : bool) (old_wt_factor new_wt : Q)
           (st : Q * Q) (cur : Q) : Q * Q :=
  let '(weighted, old_wt) := st in
  let old_wt := old_wt * old_wt_factor in
  let weighted :=
    if Qeq_bool weighted cur then weighted
    else (old_wt * weighted + new_wt * cur) / (old_wt + new_wt) in
  let old_wt := if adjust then old_wt + new_wt else 1 in
  (weighted, old_wt).

(** The loop [for i in range(1, win_size)]: one output per input. *)
Fixpoint ewm_loop (adjust : bool) (old_wt_factor new_wt : Q)
         (st : Q * Q) (vals : list Q) : list Q :=
  match vals with
  | [] => []
  | cur :: rest =>
      let st' := ewm_step adjust old_wt_factor new_wt st cur in
      fst st' :: ewm_loop adjust old_wt_factor new_wt st' rest
  end.

(** The kernel: [weighted = vals[0]], [old_wt = 1.], then the loop.  An
    empty column gives an empty column. *)
Definition ewm (com : Q) (adjust : bool) (vals : list Q) : list Q :=
  let alpha := alpha_of_com com in
  let old_wt_factor := 1 - alpha in
  let new_wt := if adjust then 1 else alpha in
  match vals with
  | [] => []
  | v0 :: rest => v0 :: ewm_loop adjust old_wt_factor new_wt (v0, 1) rest
  end.

(** [s.ewm(span=span).mean()]: every other argument at its default, and
    the default of [adjust] is [True]. *)
Definition ewm_mean (span : Q) (vals : list Q) : list Q :=
  ewm (com_of_span span) true vals.

(** Division of doubles, as numpy does it: it never raises.  A zero
    divisor gives an infinity or NaN; the embedding has the one marker
    [None] for "no finite value", so it is exact wherever the divisor is
    not zero. *)
Definition fdiv (a b : Q) : cell :=
  if Qeq_bool b 0 then None else Some (a / b).

Definition cell_div (a b : cell) : cell :=
  match a, b with
  | Some p, Some q => fdiv p q
  | _, _ => None
  end.

Definition cell_map (f : Q -> Q) (a : cell) : cell :=
  match a with Some p => Some (f p) | None => None end.

(** [s.shift(1)]: every value moves one row down, the first row gets NaN
    and the last value falls off. *)
Definition shift1 (vals : list Q) : list cell :=
  match vals with
  | [] => []
  | _ :: _ => None :: map Some (removelast vals)
  end.

(** [s.pct_change()] is [s / s.shift(1) - 1], row by row (the column has
    no NaN to fill). *)
Definition pct_change (vals : list Q) : list cell :=
  map (fun p => cell_map (fun r => r - 1) (cell_div (Some (fst p)) (snd p)))
      (combine vals (shift1 vals)).

(** [s.dropna()] keeps the rows that are not NaN. *)
Fixpoint dropna (s : list cell) : list Q :=
  match s with
  | [] => []
  | Some v :: rest => v :: dropna rest
  | None :: rest => dropna rest
  end.

Definition sum (vals : list Q) : Q := fold_right Qplus 0 vals.

Definition count (vals : list Q) : Q := inject_Z (Z.of_nat (length vals)).

(** [s.mean()]: the sum over the count; NaN for an empty series. *)
Definition mean (vals : list Q) : cell :=
  match vals with
  | [] => None
  | _ :: _ => Some (sum vals / count vals)
  end.

(** [s.var(ddof)], as [nanops.nanvar] computes it: NaN when
    [count <= ddof], else
<<
    avg = values.sum() / count
    sqr = (avg - values) ** 2
    result = sqr.sum() / (count - ddof)
>>  *)
Definition var (ddof : nat) (vals : list Q) : cell :=
  if (length vals <=? ddof)%nat then None
  else
    let avg := sum vals / count vals in
    let sqr := map (fun v => (avg - v) * (avg - v)) vals in
    Some (sum sqr / (count vals - inject_Z (Z.of_nat ddof))).

(** [s.std()] is the square root of [s.var()], and [ddof] defaults to 1:
    the sample standard deviation.  This is where the reals come in. *)
Definition std (vals : list Q) : option R :=
  match var 1 vals with
  | Some v => Some (sqrt (Q2R v))
  | None => None
  end.

End Pandas.

(** ** Python: exceptions and results *)

Module Py.

(** The exceptions that occur: the [ValueError] the program raises, the
    [KeyError] and [IndexError] of pandas' indexing, and whatever else the
    market-data provider lets escape. *)
Inductive exn : Type :=
| ValueError (msg : string)
| KeyError (key : string)
| IndexError (msg : string)
| OtherError (msg : string).

(** [str(e)], used when the program prints an exception. *)
Definition str (e : exn) : string :=
  match e with
  | ValueError msg => msg
  | KeyError key => ("'" ++ key ++ "'")%string
  | IndexError msg => msg
  | OtherError msg => msg
  end.

(** The outcome of evaluating an expression or of a call. *)
Inductive result (A : Type) : Type :=
| Return (a : A)
| Raise (e : exn).
Arguments Return {A} a.
Arguments Raise {A} e.

Definition bind {A B : Type} (c : result A) (k : A -> result B) : result B :=
  match c with
  | Return a => k a
  | Raise e => Raise e
  end.

(** [try: body  except Exception as e: handler(e)] *)
Definition try_except {A : Type} (body : result A) (handler : exn -> result A)
  : result A :=
  match body with
  | Return a => Return a
  | Raise e => handler e
  end.

Definition raises {A : Type} (c : result A) : Prop :=
  exists e, c = Raise e.

End Py.

Import Py.

Declare Scope py_scope.
Delimit Scope py_scope with py.
Notation "x <- c ;; k" := (Py.bind c (fun x => k))
  (at level 61, c at next level, right associativity) : py_scope.

(** ** Data model *)

(** One row of the frame [yf.Ticker(symbol).history(period)] returns: the
    index value (the trading day, as a day number) and the columns the
    program reads. *)
Record Bar : Type := mkBar {
  Date : Z;
  Open : Q;
  High : Q;
  Low : Q;
  Close : Q;
  Volume : Z
}.

(** The data frame: the fetched rows, and the four calculated columns, each
    present or not (the program asks ['EMA_9' in data.columns]). *)
Record DataFrame : Type := mkDataFrame {
  rows : list Bar;
  Returns : option (list Pandas.cell);
  EMA_9 : option (list Q);
  EMA_50 : option (list Q);
  EMA_200 : option (list Q)
}.

(** A frame as the provider returns it: no calculated column yet. *)
Definition fetched (bars : list Bar) : DataFrame :=
  mkDataFrame bars None None None None.

(** [data.empty] *)
Definition empty (data : DataFrame) : bool :=
  match rows data with [] => true | _ :: _ => false end.

(** [len(data)] *)
Definition len (data : DataFrame) : nat := length (rows data).

(** [data.index], [data['Close']], [data['Volume']] and so on: the columns
    of the fetched rows. *)
Definition index (data : DataFrame) : list Z := map Date (rows data).
Definition col_Open (data : DataFrame) : list Q := map Open (rows data).
Definition col_High (data : DataFrame) : list Q := map High (rows data).
Definition col_Low (data : DataFrame) : list Q := map Low (rows data).
Definition col_Close (data : DataFrame) : list Q := map Close (rows data).
Definition col_Volume (data : DataFrame) : list Z := map Volume (rows data).

(** [data[name]] for a calculated column: a [KeyError] when it is absent. *)
Definition getitem {A : Type} (name : string) (column : option A) : result A :=
  match column with
  | Some s => Return s
  | None => Raise (KeyError name)
  end.

(** [data['Returns'] = s] and the like: the column is added, or replaced,
    in the frame; nothing else of the frame changes.  The rows of the frame
    are left as they are. *)
Definition set_Returns (data : DataFrame) (s : list Pandas.cell) : DataFrame :=
  mkDataFrame (rows data) (Some s) (EMA_9 data) (EMA_50 data) (EMA_200 data).
Definition set_EMA_9 (data : DataFrame) (s : list Q) : DataFrame :=
  mkDataFrame (rows data) (Returns data) (Some s) (EMA_50 data) (EMA_200 data).
Definition set_EMA_50 (data : DataFrame) (s : list Q) : DataFrame :=
  mkDataFrame (rows data) (Returns data) (EMA_9 data) (Some s) (EMA_200 data).
Definition set_EMA_200 (data : DataFrame) (s : list Q) : DataFrame :=
  mkDataFrame (rows data) (Returns data) (EMA_9 data) (EMA_50 data) (Some s).

(** [s.iloc[i]]: position [i], counted from the end when [i] is negative;
    an [IndexError] out of bounds. *)
Definition iloc {A : Type} (s : list A) (i : Z) : result A :=
  let n := Z.of_nat (length s) in
  let pos := (if i <? 0 then n + i else i)%Z in
  if ((pos <? 0) || (n <=? pos))%Z
  then Raise (IndexError "single positional indexer is out-of-bounds")
  else match nth_error s (Z.to_nat pos) with
       | Some v => Return v
       | None => Raise (IndexError "single positional indexer is out-of-bounds")
       end.

(** ** The indicator engine: [fetch_stock_data] *)

(** The lines under [# Add calculated fields]: four column assignments on
    the fetched frame, each computed from the ['Close'] column. *)
Definition add_calculated_fields (data : DataFrame) : DataFrame :=
  let data := set_Returns data (Pandas.pct_change (col_Close data)) in
  let data := set_EMA_9 data (Pandas.ewm_mean 9 (col_Close data)) in
  let data := set_EMA_50 data (Pandas.ewm_mean 50 (col_Close data)) in
  let data := set_EMA_200 data (Pandas.ewm_mean 200 (col_Close data)) in
  data.

(** The body of the [try] block.  [history symbol period] stands for
    [yf.Ticker(symbol).history(period=period)], the call to the provider: it
    returns a frame or raises. *)
Definition fetch_stock_data_try
           (history : string -> string -> result DataFrame)
           (symbol period : string) : result DataFrame :=
  (data <- history symbol period ;;
   if empty data
   then Raise (ValueError ("No data found for " ++ symbol))
   else Return (add_calculated_fields data))%py.

(** [fetch_stock_data]: the [try] block under [except Exception as e], whose
    handler prints a line and returns [None].  The outcome of the call
    carries the lines printed and the value returned.  (The [pn.cache]
    decorator only memoises the call.) *)
Definition fetch_stock_data
           (history : string -> string -> result DataFrame)
           (symbol period : string) : result (list string * option DataFrame) :=
  try_except
    (data <- fetch_stock_data_try history symbol period ;;
     Return ([], Some data))%py
    (fun e =>
       Return
         (["Error fetching data for " ++ symbol ++ ": " ++ str e]%string, None)).

(** ** The part of plotly the program calls *)

Module Plotly.

Record Line : Type := mkLine {
  color : string;
  width : Z
}.

(** [go.Scatter(x=..., y=..., mode=..., name=..., line=..., opacity=...)];
    [opacity] is optional. *)
Record Scatter : Type := mkScatter {
  x : list Z;
  y : list Q;
  mode : string;
  name : string;
  line : Line;
  opacity : option Q
}.

Record Annotation : Type := mkAnnotation {
  text : string;
  xref : string;
  yref : string;
  ax : Q;
  ay : Q;
  showarrow : bool
}.

(** The layout properties the program sets; [None] is "not set". *)
Record Layout : Type := mkLayout {
  title : option string;
  xaxis_title : option string;
  yaxis_title : option string;
  template : option string;
  height : option Z;
  showlegend : option bool;
  legend : option (Q * Q);
  margin : option (Z * Z * Z * Z);
  xaxis_rangeslider_visible : option bool
}.

Record Figure : Type := mkFigure {
  data : list Scatter;
  annotations : list Annotation;
  layout : Layout
}.

(** [go.Figure()] *)
Definition new_Figure : Figure :=
  mkFigure [] [] (mkLayout None None None None None None None None None).

(** [fig.add_trace(t)] and [fig.add_annotation(...)] append to the
    figure's lists and return the figure. *)
Definition add_trace (fig : Figure) (t : Scatter) : Figure :=
  mkFigure (data fig ++ [t]) (annotations fig) (layout fig).

Definition add_annotation (fig : Figure) (a : Annotation) : Figure :=
  mkFigure (data fig) (annotations fig ++ [a]) (layout fig).

(** [fig.update_layout(...)] with the properties given. *)
Definition update_layout (fig : Figure) (f : Layout -> Layout) : Figure :=
  mkFigure (data fig) (annotations fig) (f (layout fig)).

End Plotly.

(** ** The presentation builders *)

(** The figure returned when there is nothing to plot. *)
Definition no_data_annotation : Plotly.Annotation :=
  Plotly.mkAnnotation "No data available" "paper" "paper" (1 # 2) (1 # 2) false.

(** The trace of a moving average, added when the column is present. *)
Definition add_ema_trace (fig : Plotly.Figure) (data : DataFrame)
           (column : option (list Q)) (name color : string) : Plotly.Figure :=
  match column with
  | Some s =>
      Plotly.add_trace fig
        (Plotly.mkScatter (index data) s "lines" name
           (Plotly.mkLine color 1) (Some (7 # 10)))
  | None => fig
  end.

(** [create_stock_chart(data, symbol)]; [data] is [None] or a frame. *)
Definition create_stock_chart (data : option DataFrame) (symbol : string)
  : Plotly.Figure :=
  match data with
  | None => Plotly.add_annotation Plotly.new_Figure no_data_annotation
  | Some data =>
      if empty data
      then Plotly.add_annotation Plotly.new_Figure no_data_annotation
      else
        let fig := Plotly.new_Figure in
        let fig :=
          Plotly.add_trace fig
            (Plotly.mkScatter (index data) (col_Close data) "lines"
               (symbol ++ " Close") (Plotly.mkLine "#00BFFF" 2) None) in
        let fig := add_ema_trace fig data (EMA_9 data) "EMA 9" "orange" in
        let fig := add_ema_trace fig data (EMA_50 data) "EMA 50" "#4169E1" in
        let fig := add_ema_trace fig data (EMA_200 data) "EMA 200" "#191970" in
        let fig :=
          Plotly.update_layout fig (fun _ =>
            Plotly.mkLayout (Some (symbol ++ " Stock Price")%string)
              (Some "Date"%string) (Some "Price ($)"%string)
              (Some "plotly_white"%string) (Some 500%Z) (Some true)
              (Some (1 # 100, 99 # 100)) (Some (50, 50, 50, 50)%Z) None) in
        Plotly.update_layout fig (fun l =>
          Plotly.mkLayout (Plotly.title l) (Plotly.xaxis_title l)
            (Plotly.yaxis_title l) (Plotly.template l) (Plotly.height l)
            (Plotly.showlegend l) (Plotly.legend l) (Plotly.margin l)
            (Some false))
  end.

(** The values under [# Calculate key metrics], by the names the program
    gives them, and the two ends of the date range it prints. *)
Record KeyMetrics : Type := mkKeyMetrics {
  current_price : Q;
  prev_close : Q;
  daily_change : Q;
  daily_change_pct : Pandas.cell;
  period_start : Q;
  period_return : Pandas.cell;
  volatility : option R;
  annualized_return : Pandas.cell;
  avg_volume : Pandas.cell;
  latest_volume : Z;
  range_first : Z;
  range_last : Z
}.

(** [pn.pane.Markdown(...)].  The pane holds a fixed text, or the statistics
    text: an f-string that prints the key metrics under fixed headings.
    How a double is printed in decimal is left out, so the statistics text
    is represented by the values it prints. *)
Inductive Markdown : Type :=
| MarkdownText (text : string)
| MarkdownStats (metrics : KeyMetrics).

(** [np.sqrt(252) * 100] applied to a standard deviation. *)
Definition annualize_std (sd : R) : R := (sd * sqrt 252 * 100)%R.

(** The metrics of a frame that is not empty.  The divisions are numpy's,
    on doubles taken out of the columns. *)
Definition key_metrics (data : DataFrame) : result KeyMetrics :=
  (current_price <- iloc (col_Close data) (-1) ;;
   prev_close <-
     (if (1 <? len data)%nat then iloc (col_Close data) (-2)
      else Return current_price) ;;
   let daily_change := current_price - prev_close in
   let daily_change_pct :=
     Pandas.cell_map (fun r => r * 100) (Pandas.fdiv daily_change prev_close) in
   period_start <- iloc (col_Close data) 0 ;;
   let period_return :=
     Pandas.cell_map (fun r => r * 100)
       (Pandas.fdiv (current_price - period_start) period_start) in
   column <- getitem "Returns" (Returns data) ;;
   let returns := Pandas.dropna column in
   let volatility := option_map annualize_std (Pandas.std returns) in
   let annualized_return :=
     Pandas.cell_map (fun r => r * 252 * 100) (Pandas.mean returns) in
   let avg_volume := Pandas.mean (map inject_Z (col_Volume data)) in
   latest_volume <- iloc (col_Volume data) (-1) ;;
   first_day <- iloc (index data) 0 ;;
   last_day <- iloc (index data) (-1) ;;
   Return (mkKeyMetrics current_price prev_close daily_change daily_change_pct
             period_start period_return volatility annualized_return
             avg_volume latest_volume first_day last_day))%py.

(** [create_stats_panel(data)]; [data] is [None] or a frame. *)
Definition create_stats_panel (data : option DataFrame) : result Markdown :=
  match data with
  | None => Return (MarkdownText "**No data available**")
  | Some data =>
      if empty data
      then Return (MarkdownText "**No data available**")
      else (metrics <- key_metrics data ;; Return (MarkdownStats metrics))%py
  end.

(** [create_dashboard]: the fetched data goes to both builders.  The
    template that lays the two panes out is left out. *)
Definition create_dashboard (history : string -> string -> result DataFrame)
  : result (list string * (Plotly.Figure * Markdown)) :=
  (fetched <- fetch_stock_data history "^GSPC" "2y" ;;
   let '(printed, data) := fetched in
   let chart := create_stock_chart data "^GSPC" in
   stats <- create_stats_panel data ;;
   Return (printed, (chart, stats)))%py.

(** ** The quantities the specification names *)

(** The smoothing factor of a span: [2 / (s + 1)]. *)
Definition smoothing (span : Z) : Q := 2 / (inject_Z span + 1).

(** The sum of [f 0 .. f n]. *)
Fixpoint sigma (n : nat) (f : nat -> Q) : Q :=
  match n with
  | O => f O
  | S m => sigma m f + f (S m)
  end.

(** The weight of the observation [k] bars back: [(1 - alpha)^k]. *)
Definition weight (alpha : Q) (k : nat) : Q := (1 - alpha) ^ Z.of_nat k.

(** The sum of the weights seen up to bar [i], the weighted sum of the
    closes up to bar [i], and their quotient: the cumulative-weighted
    average. *)
Definition weight_sum (alpha : Q) (i : nat) : Q :=
  sigma i (weight alpha).

Definition weighted_sum (alpha : Q) (close : list Q) (i : nat) : Q :=
  sigma i (fun k => weight alpha k * nth (i - k) close 0).

Definition cumulative_weighted_average (alpha : Q) (close : list Q) (i : nat) : Q :=
  weighted_sum alpha close i / weight_sum alpha i.

(** The simple recursive form at bar [i >= 1], with factor [a]:
    [ema[i] = a * close[i] + (1 - a) * ema[i-1]]. *)
Definition recursive_form_at (a : Q) (close ema : list Q) (i : nat) : Prop :=
  nth i ema 0 == a * nth i close 0 + (1 - a) * nth (i - 1) ema 0.

(** The calculated column of a span. *)
Definition ema_column (span : Z) (data : DataFrame) : option (list Q) :=
  if (span =? 9)%Z then EMA_9 data
  else if (span =? 50)%Z then EMA_50 data
  else if (span =? 200)%Z then EMA_200 data
  else None.

(** A price history as the data model has it: every close is positive. *)
Definition positive_closes (bars : list Bar) : Prop :=
  Forall (fun b => 0 < Close b) bars.

(** The provider that answers every request with the given bars. *)
Definition provider_of (bars : list Bar) : string -> string -> result DataFrame :=
  fun _ _ => Return (fetched bars).

(** The claim that the moving average of a span follows the simple
    recursive form with the constant factor [2 / (s + 1)]. *)
Definition simple_recursive_ema (span : Z) (close ema : list Q) : Prop :=
  length ema = length close
  /\ nth 0 ema 0 == nth 0 close 0
  /\ forall i, (1 <= i < length close)%nat ->
       recursive_form_at (smoothing span) close ema i.

(** The same with the factor of bar [i] taken as one over the sum of the
    weights seen up to bar [i]. *)
Definition weighted_recursive_ema (span : Z) (close ema : list Q) : Prop :=
  length ema = length close
  /\ nth 0 ema 0 == nth 0 close 0
  /\ forall i, (1 <= i < length close)%nat ->
       recursive_form_at (1 / weight_sum (smoothing span) i) close ema i.

(** The daily return at bar [i >= 1]:
    [(close[i] - close[i-1]) / close[i-1]]. *)
Definition daily_return (close : list Q) (i : nat) : Q :=
  (nth i close 0 - nth (i - 1) close 0) / nth (i - 1) close 0.

(** The rows of [pct_change] after the first: the changes of the closes
    [rest] that follow the close [prev]. *)
Fixpoint changes_after (prev : Q) (rest : list Q) : list Pandas.cell :=
  match rest with
  | [] => []
  | cur :: rest' =>
      Pandas.cell_map (fun r => r - 1) (Pandas.fdiv cur prev)
        :: changes_after cur rest'
  end.

(** The defined values of a column: its rows that are not NaN, in order. *)
Definition defined_values (s : list Pandas.cell) : list Q :=
  flat_map (fun c => match c with Some v => [v] | None => [] end) s.

(** The arithmetic mean [(x_0 + ... + x_{n-1}) / n]; none for no value. *)
Definition arithmetic_mean (xs : list Q) : option Q :=
  match length xs with
  | O => None
  | S n => Some (sigma n (fun k => nth k xs 0) / inject_Z (Z.of_nat (S n)))
  end.

(** The sample variance: the squared deviations from the mean, summed and
    divided by [n - 1]; none for fewer than two values.  The sample
    standard deviation is its square root. *)
Definition sample_variance (xs : list Q) : option Q :=
  match arithmetic_mean xs, length xs with
  | Some mu, S (S n) =>
      Some (sigma (S n) (fun k => (nth k xs 0 - mu) * (nth k xs 0 - mu))
            / (inject_Z (Z.of_nat (S (S n))) - 1))
  | _, _ => None
  end.

Definition sample_stddev (xs : list Q) : option R :=
  option_map (fun v => sqrt (Q2R v)) (sample_variance xs).

(** Two cells are the same: both NaN, or the same number. *)
Definition cell_eq (a b : Pandas.cell) : Prop :=
  match a, b with
  | Some p, Some q => p == q
  | None, None => True
  | _, _ => False
  end.

(** ** Sample histories *)

(** A bar whose four prices are the same. *)
Definition bar (day : Z) (price : Q) (volume : Z) : Bar :=
  mkBar day price price price price volume.

Definition one_bar : list Bar := [bar 1 100 1000].
Definition two_bars : list Bar := [bar 1 100 1000; bar 2 110 1200].
Definition three_bars : list Bar :=
  [bar 1 100 1000; bar 2 110 1200; bar 3 121 900].

(** [n] bars, all at the price [p]. *)
Definition flat_bars (n : nat) (p : Q) : list Bar :=
  map (fun k => bar (Z.of_nat k) p 1000) (seq 0 n).

Definition ten_flat_bars : list Bar := flat_bars 10 100.
Definition two_flat_bars : list Bar := flat_bars 2 100.

(** A frame that has calculated columns and no row. *)
Definition no_rows : DataFrame :=
  mkDataFrame [] (Some []) (Some []) (Some []) (Some []).

(** ** Further quantities, for the properties of the whole pipeline *)

(** There is nothing to show: [data is None or data.empty]. *)
Definition no_data (data : option DataFrame) : Prop :=
  data = None \/ exists d, data = Some d /\ rows d = [].

(** The key metrics of a frame with rows whose returns column is
    [returns], written out position by position. *)
Definition metrics_of (data : DataFrame) (returns : list Pandas.cell)
  : KeyMetrics :=
  let n := len data in
  let close := col_Close data in
  let current := nth (n - 1) close 0 in
  let previous := if (1 <? n)%nat then nth (n - 2) close 0 else current in
  let start := nth 0 close 0 in
  mkKeyMetrics current previous (current - previous)
    (Pandas.cell_map (fun r => r * 100)
       (Pandas.fdiv (current - previous) previous))
    start
    (Pandas.cell_map (fun r => r * 100) (Pandas.fdiv (current - start) start))
    (option_map annualize_std (Pandas.std (Pandas.dropna returns)))
    (Pandas.cell_map (fun r => r * 252 * 100)
       (Pandas.mean (Pandas.dropna returns)))
    (Pandas.mean (map inject_Z (col_Volume data)))
    (nth (n - 1) (col_Volume data) 0%Z)
    (nth 0 (index data) 0%Z)
    (nth (n - 1) (index data) 0%Z).

(** Daily returns compounded: the product of [1 + r]. *)
Definition compound (rs : list Q) : Q :=
  fold_right (fun r acc => (1 + r) * acc) 1 rs.



(** The day-over-day changes of the closes [rest] that follow the close
    [prev], as numbers: [close[i] / close[i-1] - 1]. *)
Fixpoint changes (prev : Q) (rest : list Q) : list Q :=
  match rest with
  | [] => []
  | cur :: rest' => (cur / prev - 1) :: changes cur rest'
  end.


(** ** Running the dashboard: printing, serving, exiting

    The functions of [src/stonkulator.py] and [src/main.py] around the
    pipeline: the component test, the servers and the two [__main__]
    blocks.  They print, call [pn.serve] and may call [exit]; the
    embedding keeps the list of these events, in order, next to the way
    the run ends. *)

(** *** The texts printed, as they stand in the source files *)

(** [serve_dashboard], after [pn.serve] *)
Definition msg_available : string := "Dashboard available at: http://localhost:5007".

(** [run_stonkulator], first line *)
Definition msg_starting : string := "ğŸš€ Starting Stonkulator MVP 1...".

(** [run_stonkulator], after [serve_dashboard] *)
Definition msg_running : string := "âœ… Dashboard is running!".

(** [run_stonkulator], after [serve_dashboard] *)
Definition msg_access : string := "ğŸŒ Access at: http://localhost:5007".

(** [run_stonkulator], after [serve_dashboard] *)
Definition msg_press : string := "Press Ctrl+C to stop the server".

(** [run_stonkulator], handler: this text, then [str(e)] *)
Definition msg_error_starting : string := "âŒ Error starting dashboard: ".

(** [test_components], first line *)
Definition msg_testing : string := "ğŸ§ª Testing components...".

(** [test_components]: this text, the number of rows, then [msg_days] *)
Definition msg_fetched : string := "âœ… Data fetched: ".

(** the end of the line that starts with [msg_fetched] *)
Definition msg_days : string := " days".

(** [test_components]: this text, then the last close with two decimals *)
Definition msg_latest_close : string := "ğŸ“Š Latest close: $".

(** [test_components], no data *)
Definition msg_fetch_failed : string := "âŒ Data fetch failed".

(** [test_components], chart present *)
Definition msg_chart_created : string := "âœ… Chart created".

(** [test_components], chart absent *)
Definition msg_chart_failed : string := "âŒ Chart creation failed".

(** [test_components], last line *)
Definition msg_ready : string := "ğŸ‰ MVP 1 Components Ready!".

(** [serve_cloud_run], first line *)
Definition msg_starting_cloud_run : string := "ğŸš€ Starting Stonkulator MVP 1 for Cloud Run...".

(** [serve_cloud_run] and [serve_locally], test failed *)
Definition msg_tests_failed : string := "âŒ Component tests failed!".

(** [serve_cloud_run]: this text, then the port *)
Definition msg_serving_on_port : string := "ğŸŒ Serving on port ".

(** [test_local], first line *)
Definition msg_testing_local : string := "ğŸ§ª Testing Stonkulator MVP 1 components...".

(** [serve_locally], first line *)
Definition msg_starting_locally : string := "ğŸš€ Starting Stonkulator MVP 1 locally...".

(** [serve_locally]: this text, then the port *)
Definition msg_serving_at : string := "ğŸŒ Serving dashboard at: http://localhost:".

(** [str(n)] of an integer, as an f-string prints it. *)
Definition str_nat (n : nat) : string := NilZero.string_of_uint (Nat.to_uint n).
Definition str_int (z : Z) : string := NilZero.string_of_int (Z.to_int z).

(** A printed line: a text, or the line [msg_latest_close] followed by a
    price with two decimals.  How a double prints in decimal is left out,
    so that line is represented by the price. *)
Inductive line : Type :=
| Text (text : string)
| LatestClose (price : Q).

(** *** The part of panel the programs call *)

Module Panel.

(** [pn.pane.Markdown], [pn.pane.Plotly(fig, sizing_mode, height)] and
    [pn.Spacer(height)]. *)
Inductive Pane : Type :=
| MarkdownPane (body : Markdown)
| PlotlyPane (fig : Plotly.Figure) (sizing_mode : string) (height : option Z)
| Spacer (height : Z).

(** [pn.template.MaterialTemplate(title, sidebar, main, header_background,
    theme)]; [theme] is optional. *)
Record Template : Type := mkTemplate {
  title : string;
  sidebar : list Pane;
  main : list Pane;
  header_background : string;
  theme : option string
}.

(** The arguments of a call [pn.serve(panels, port=..., ...)]; the keyword
    arguments other than [port] are optional. *)
Record ServeArgs : Type := mkServeArgs {
  panels : Template;
  port : Z;
  host : option string;
  show : option bool;
  autoreload : option bool;
  allow_websocket_origin : option (list string)
}.

End Panel.

(** *** Events and endings *)

(** What a run does to the outside: it prints a line or calls [pn.serve]. *)
Inductive event : Type :=
| Printed (l : line)
| Served (args : Panel.ServeArgs).

(** How a run ends: it returns a value, it raises an exception that
    [except Exception] would catch, or it leaves through [exit(code)],
    which [except Exception] does not catch. *)
Inductive ending (A : Type) : Type :=
| Done (a : A)
| Raised (e : exn)
| Exited (code : Z).
Arguments Done {A} a.
Arguments Raised {A} e.
Arguments Exited {A} code.

(** A run: the events so far, in order, and the ending. *)
Definition IO (A : Type) : Type := (list event * ending A)%type.

Definition io_ret {A : Type} (a : A) : IO A := ([], Done a).

Definition io_bind {A B : Type} (c : IO A) (k : A -> IO B) : IO B :=
  match c with
  | (out, Done a) => let '(out', fin) := k a in (out ++ out', fin)
  | (out, Raised e) => (out, Raised e)
  | (out, Exited code) => (out, Exited code)
  end.

Declare Scope io_scope.
Delimit Scope io_scope with io.
Notation "x <- c ;; k" := (io_bind c (fun x => k))
  (at level 61, c at next level, right associativity) : io_scope.

(** [try: body  except Exception as e: handler(e)], with the events kept. *)
Definition io_try_except {A : Type} (body : IO A) (handler : exn -> IO A)
  : IO A :=
  match body with
  | (out, Raised e) => let '(out', fin) := handler e in (out ++ out', fin)
  | (out, Done a) => (out, Done a)
  | (out, Exited code) => (out, Exited code)
  end.

(** An expression or call that prints nothing. *)
Definition of_result {A : Type} (r : result A) : IO A :=
  ([], match r with Return a => Done a | Raise e => Raised e end).

(** [print(...)] *)
Definition print (l : line) : IO unit := ([Printed l], Done tt).

(** [exit(code)] *)
Definition exit {A : Type} (code : Z) : IO A := ([], Exited code).

(** The events of a run and its ending. *)
Definition events {A : Type} (c : IO A) : list event := fst c.
Definition ends {A : Type} (c : IO A) : ending A := snd c.

(** The calls to [pn.serve] among the events. *)
Fixpoint serve_calls (out : list event) : list Panel.ServeArgs :=
  match out with
  | [] => []
  | Served args :: rest => args :: serve_calls rest
  | Printed _ :: rest => serve_calls rest
  end.

(** *** The programs *)

Section Programs.

(** The provider, as before. *)
Variable history : string -> string -> result DataFrame.

(** [pn.serve]: it returns a server or raises. *)
Variable Server : Type.
Variable serve : Panel.ServeArgs -> result Server.

(** [os.environ.get('PORT')], and [int(s)] on a string. *)
Variable environ_PORT : option string.
Variable int_of_str : string -> result Z.

(** A call of [fetch_stock_data], its lines among the events. *)
Definition io_fetch_stock_data (symbol period : string) : IO (option DataFrame) :=
  (fetched <- of_result (fetch_stock_data history symbol period) ;;
   (map (fun text => Printed (Text text)) (fst fetched), Done (snd fetched)))%io.

(** A call of [pn.serve]. *)
Definition pn_serve (args : Panel.ServeArgs) : IO Server :=
  ([Served args],
   match serve args with Return server => Done server | Raise e => Raised e end).

(** [test_components] of [stonkulator.py] and [test_local] of [main.py]:
    the same function but for the first line it prints. *)
Definition run_tests (first_line : string) : IO bool :=
  (_ <- print (Text first_line) ;;
   test_data <- io_fetch_stock_data "^GSPC" "1y" ;;
   match test_data with
   | Some data =>
       _ <- print (Text (msg_fetched ++ str_nat (len data) ++ msg_days)) ;;
       price <- of_result (iloc (col_Close data) (-1)) ;;
       _ <- print (LatestClose price) ;;
       let test_chart := Some (create_stock_chart (Some data) "^GSPC") in
       match test_chart with
       | Some _ =>
           _ <- print (Text msg_chart_created) ;;
           _ <- print (Text msg_ready) ;;
           io_ret true
       | None =>
           _ <- print (Text msg_chart_failed) ;;
           io_ret false
       end
   | None =>
       _ <- print (Text msg_fetch_failed) ;;
       io_ret false
   end)%io.

Definition test_components : IO bool := run_tests msg_testing.
Definition test_local : IO bool := run_tests msg_testing_local.

(** The template [create_dashboard] of [stonkulator.py] lays out. *)
Definition dashboard_template (chart : Plotly.Figure) (stats : Markdown)
  : Panel.Template :=
  Panel.mkTemplate "Stonkulator" [Panel.MarkdownPane stats]
    [Panel.PlotlyPane chart "stretch_width" None] "#2596be" None.

(** [create_dashboard] of [stonkulator.py], with its lines among the events
    and its two panes in the template. *)
Definition io_create_dashboard : IO Panel.Template :=
  (made <- of_result (create_dashboard history) ;;
   (map (fun text => Printed (Text text)) (fst made),
    Done (dashboard_template (fst (snd made)) (snd (snd made)))))%io.

(** [serve_dashboard] of [stonkulator.py] *)
Definition serve_dashboard : IO Server :=
  (dashboard <- io_create_dashboard ;;
   server <- pn_serve (Panel.mkServeArgs dashboard 5007 None (Some true) None
                         (Some ["localhost:5007"%string])) ;;
   _ <- print (Text msg_available) ;;
   io_ret server)%io.

(** [run_stonkulator] of [stonkulator.py] *)
Definition run_stonkulator : IO unit :=
  (_ <- print (Text msg_starting) ;;
   io_try_except
     (server <- serve_dashboard ;;
      _ <- print (Text msg_running) ;;
      _ <- print (Text msg_access) ;;
      _ <- print (Text msg_press) ;;
      io_ret tt)
     (fun e => print (Text (msg_error_starting ++ str e))))%io.

(** The [__main__] block of [stonkulator.py] *)
Definition main_stonkulator : IO unit :=
  (passed <- test_components ;;
   if passed then run_stonkulator else io_ret tt)%io.

(** [create_dashboard_app] of [main.py] *)
Definition create_dashboard_app : IO Panel.Template :=
  (data <- io_fetch_stock_data "^GSPC" "2y" ;;
   let chart :=
     Panel.PlotlyPane (create_stock_chart data "^GSPC") "stretch_width"
       (Some 500%Z) in
   stats <- of_result (create_stats_panel data) ;;
   io_ret
     (Panel.mkTemplate "Stonkulator MVP 1 - S&P 500 Dashboard"
        [Panel.MarkdownPane (MarkdownText "## Stonkulator MVP 1");
         Panel.MarkdownPane (MarkdownText "**Live S&P 500 Analysis**");
         Panel.Spacer 20;
         Panel.MarkdownPane stats]
        [chart] "#2596be" (Some "DarkTheme"%string)))%io.

(** [serve_cloud_run] of [main.py] *)
Definition serve_cloud_run : IO unit :=
  (_ <- print (Text msg_starting_cloud_run) ;;
   passed <- test_local ;;
   _ <- (if passed then io_ret tt
         else (_ <- print (Text msg_tests_failed) ;; exit 1)) ;;
   port <- of_result (match environ_PORT with
                      | Some text => int_of_str text
                      | None => Return 8080%Z
                      end) ;;
   dashboard <- create_dashboard_app ;;
   _ <- print (Text (msg_serving_on_port ++ str_int port)) ;;
   _ <- pn_serve (Panel.mkServeArgs dashboard port (Some "0.0.0.0"%string)
                    (Some false) (Some false) (Some ["*"%string])) ;;
   io_ret tt)%io.

(** [serve_locally(port)] of [main.py]; the default of [port] is 8080. *)
Definition serve_locally (port : Z) : IO unit :=
  (_ <- print (Text msg_starting_locally) ;;
   passed <- test_local ;;
   if passed then
     dashboard <- create_dashboard_app ;;
     _ <- print (Text (msg_serving_at ++ str_int port)) ;;
     _ <- pn_serve (Panel.mkServeArgs dashboard port None (Some true) None None) ;;
     io_ret tt
   else
     _ <- print (Text msg_tests_failed) ;;
     io_ret tt)%io.

(** [if os.environ.get('PORT')]: a string that is not empty. *)
Definition port_is_set : bool :=
  match environ_PORT with
  | Some EmptyString => false
  | Some (String _ _) => true
  | None => false
  end.

(** The [__main__] block of [main.py] *)
Definition main_app : IO unit :=
  if port_is_set then serve_cloud_run else serve_locally 8080.

End Programs.

(** *** Words for the properties of the programs *)

(** The provider gives nothing to work with: it raises, or it returns a
    frame without rows. *)
Definition provider_failed (history : string -> string -> result DataFrame)
           (symbol period : string) : Prop :=
  raises (history symbol period)
  \/ exists raw, history symbol period = Return raw /\ rows raw = [].

(** The provider returns a frame with rows. *)
Definition provider_delivers (history : string -> string -> result DataFrame)
           (symbol period : string) : Prop :=
  exists raw, history symbol period = Return raw /\ rows raw <> [].

(** The line [fetch_stock_data] prints when it returns [None]. *)
Definition fetch_error_line (symbol msg : string) : event :=
  Printed (Text ("Error fetching data for " ++ symbol ++ ": " ++ msg)).

(** What the component test does, whichever of its two names it runs
    under: it ends by returning a Boolean, [True] exactly when the provider
    delivers the one-year history of the index; it does not call
    [pn.serve]; it does not print the chart-failure line. *)
Definition tests_behave (history : string -> string -> result DataFrame)
           (test : IO bool) : Prop :=
  (ends test = Done true \/ ends test = Done false)
  /\ (ends test = Done true <-> provider_delivers history "^GSPC" "1y")
  /\ (ends test = Done false <-> provider_failed history "^GSPC" "1y")
  /\ serve_calls (events test) = []
  /\ ~ In (Printed (Text msg_chart_failed)) (events test).

(** The arguments of the one [pn.serve] call of each program. *)
Definition stonkulator_serve_args (dashboard : Panel.Template) : Panel.ServeArgs :=
  Panel.mkServeArgs dashboard 5007 None (Some true) None
    (Some ["localhost:5007"%string]).

Definition cloud_run_serve_args (dashboard : Panel.Template) (port : Z)
  : Panel.ServeArgs :=
  Panel.mkServeArgs dashboard port (Some "0.0.0.0"%string) (Some false)
    (Some false) (Some ["*"%string]).

Definition local_serve_args (dashboard : Panel.Template) (port : Z)
  : Panel.ServeArgs :=
  Panel.mkServeArgs dashboard port None (Some true) None None.

(** How a call of [pn.serve] that is not guarded ends the run. *)
Definition ending_of_serve {Server : Type} (r : result Server) : ending unit :=
  match r with Return _ => Done tt | Raise e => Raised e end.

(** * Proofs *)

(** ** Sample runs *)

Example ewm_mean_three_bars :
  map Qred (Pandas.ewm_mean 9 [100; 110; 121]) = [100; 950 # 9; 6825 # 61].
Proof. reflexivity. Qed.

Example pct_change_three_bars :
  map (option_map Qred) (Pandas.pct_change [100; 110; 121])
  = [None; Some (1 # 10); Some (1 # 10)].
Proof. reflexivity. Qed.

Example chart_of_three_bars :
  map Plotly.name
      (Plotly.data
         (create_stock_chart (Some (add_calculated_fields (fetched three_bars)))
            "^GSPC"))
  = ["^GSPC Close"; "EMA 9"; "EMA 50"; "EMA 200"]%string.
Proof. reflexivity. Qed.

Example chart_of_fetched_frame :
  map Plotly.name
      (Plotly.data (create_stock_chart (Some (fetched three_bars)) "^GSPC"))
  = ["^GSPC Close"%string].
Proof. reflexivity. Qed.

Example provider_failure :
  fetch_stock_data (fun _ _ => Raise (OtherError "connection refused"))
                   "^GSPC" "2y"
  = Return (["Error fetching data for ^GSPC: connection refused"%string], None).
Proof. reflexivity. Qed.

Example iloc_runs :
  iloc [10; 20; 30]%Z (-1) = Return 30%Z
  /\ iloc [10; 20; 30]%Z (-2) = Return 20%Z
  /\ iloc [10; 20; 30]%Z 0 = Return 10%Z
  /\ iloc [10; 20; 30]%Z 3
     = Raise (IndexError "single positional indexer is out-of-bounds")
  /\ iloc [10; 20; 30]%Z (-4)
     = Raise (IndexError "single positional indexer is out-of-bounds").
Proof. repeat split. Qed.

(** ** Sums and weights *)

Lemma sigma_ext n f g :
  (forall k, (k <= n)%nat -> f k == g k) -> sigma n f == sigma n g.
Proof.
  induction n as [|n IH]; intros Hfg; simpl.
  - apply Hfg; lia.
  - rewrite IH by (intros; apply Hfg; lia).
    rewrite (Hfg (S n)) by lia. reflexivity.
Qed.

Lemma sigma_shift n f :
  sigma (S n) f == f O + sigma n (fun k => f (S k)).
Proof.
  induction n as [|n IH].
  - simpl. reflexivity.
  - change (sigma (S (S n)) f) with (sigma (S n) f + f (S (S n))).
    rewrite IH. simpl. ring.
Qed.

Lemma sigma_scale n c f :
  sigma n (fun k => c * f k) == c * sigma n f.
Proof.
  induction n as [|n IH]; simpl.
  - reflexivity.
  - rewrite IH. ring.
Qed.

Lemma weight_0 alpha : weight alpha 0 == 1.
Proof. reflexivity. Qed.

Lemma weight_S alpha k : weight alpha (S k) == (1 - alpha) * weight alpha k.
Proof.
  unfold weight.
  replace (Z.of_nat (S k)) with (1 + Z.of_nat k)%Z by lia.
  rewrite Qpower_plus' by lia.
  rewrite Qpower_1_r. reflexivity.
Qed.

Lemma weight_sum_S alpha i :
  weight_sum alpha (S i) == 1 + (1 - alpha) * weight_sum alpha i.
Proof.
  unfold weight_sum. rewrite sigma_shift, weight_0.
  rewrite <- sigma_scale.
  apply Qplus_comp; [reflexivity|].
  apply sigma_ext; intros k _. apply weight_S.
Qed.

Lemma weight_sum_pos alpha i : alpha <= 1 -> 0 < weight_sum alpha i.
Proof.
  intros H. induction i as [|i IH].
  - reflexivity.
  - rewrite weight_sum_S.
    assert (0 <= (1 - alpha) * weight_sum alpha i).
    { apply Qmult_le_0_compat; qlra. }
    qlra.
Qed.

Lemma weighted_sum_0 alpha close : weighted_sum alpha close 0 == nth 0 close 0.
Proof.
  unfold weighted_sum. simpl. rewrite weight_0. ring.
Qed.

Lemma weighted_sum_S alpha close i :
  weighted_sum alpha close (S i)
  == nth (S i) close 0 + (1 - alpha) * weighted_sum alpha close i.
Proof.
  unfold weighted_sum. rewrite sigma_shift, weight_0.
  rewrite <- sigma_scale.
  apply Qplus_comp.
  - rewrite Nat.sub_0_r. ring.
  - apply sigma_ext; intros k _.
    rewrite weight_S. simpl. ring.
Qed.

(** ** The loop of the [ewm] kernel *)

Section EwmLoop.

Variable alpha : Q.
Hypothesis alpha_le_1 : alpha <= 1.

Lemma weight_sum_nonzero i : ~ weight_sum alpha i == 0.
Proof.
  pose proof (weight_sum_pos alpha i alpha_le_1) as H.
  intros E. rewrite E in H. discriminate H.
Qed.

Lemma weight_sum_succ_nonzero i : ~ 1 + (1 - alpha) * weight_sum alpha i == 0.
Proof.
  pose proof (weight_sum_nonzero (S i)) as H.
  rewrite weight_sum_S in H. exact H.
Qed.

(** After bar [i] the state of the loop is the cumulative-weighted
    average up to [i] and the sum of the weights up to [i]; one turn of
    the loop on the next close keeps that. *)
Lemma ewm_step_invariant close i weighted old_wt :
  weighted == cumulative_weighted_average alpha close i ->
  old_wt == weight_sum alpha i ->
  let st' := Pandas.ewm_step true (1 - alpha) 1 (weighted, old_wt)
                             (nth (S i) close 0) in
  fst st' == cumulative_weighted_average alpha close (S i)
  /\ snd st' == weight_sum alpha (S i).
Proof.
  intros Hw Ho. cbv zeta.
  unfold Pandas.ewm_step, cumulative_weighted_average in *.
  cbn [fst snd].
  pose proof (weight_sum_nonzero i) as HW.
  pose proof (weight_sum_succ_nonzero i) as HW'.
  split.
  - rewrite weighted_sum_S, weight_sum_S.
    destruct (Qeq_bool weighted (nth (S i) close 0)) eqn:E.
    + apply Qeq_bool_eq in E. rewrite <- E, Hw. field. split; assumption.
    + rewrite Hw, Ho. field. split; [|assumption].
      intros Z. apply HW'. rewrite <- Z. ring.
  - rewrite weight_sum_S, Ho. ring.
Qed.

Lemma ewm_loop_length st vals :
  length (Pandas.ewm_loop true (1 - alpha) 1 st vals) = length vals.
Proof.
  revert st. induction vals as [|cur rest IH]; intros st; simpl.
  - reflexivity.
  - rewrite IH. reflexivity.
Qed.

Lemma ewm_loop_cons st cur rest :
  Pandas.ewm_loop true (1 - alpha) 1 st (cur :: rest)
  = fst (Pandas.ewm_step true (1 - alpha) 1 st cur)
      :: Pandas.ewm_loop true (1 - alpha) 1
           (Pandas.ewm_step true (1 - alpha) 1 st cur) rest.
Proof. reflexivity. Qed.

(** The outputs of the loop, started after the bars [seen] in a state
    that satisfies the invariant. *)
Lemma ewm_loop_nth rest : forall seen weighted old_wt j,
  seen <> [] ->
  weighted == cumulative_weighted_average alpha (seen ++ rest) (length seen - 1) ->
  old_wt == weight_sum alpha (length seen - 1) ->
  (j < length rest)%nat ->
  nth j (Pandas.ewm_loop true (1 - alpha) 1 (weighted, old_wt) rest) 0
  == cumulative_weighted_average alpha (seen ++ rest) (length seen + j).
Proof.
  induction rest as [|cur rest IH]; intros seen weighted old_wt j Hne Hw Ho Hj.
  - simpl in Hj. lia.
  - assert (Hlen : (1 <= length seen)%nat).
    { destruct seen; [congruence | simpl; lia]. }
    assert (Hcur : nth (S (length seen - 1)) (seen ++ cur :: rest) 0 = cur).
    { replace (S (length seen - 1)) with (length seen) by lia.
      rewrite app_nth2 by lia. rewrite Nat.sub_diag. reflexivity. }
    pose proof (ewm_step_invariant (seen ++ cur :: rest) (length seen - 1)
                  weighted old_wt Hw Ho) as Hstep.
    cbv zeta in Hstep. rewrite Hcur in Hstep.
    replace (S (length seen - 1)) with (length seen) in Hstep by lia.
    destruct Hstep as [Hw' Ho'].
    rewrite ewm_loop_cons.
    destruct (Pandas.ewm_step true (1 - alpha) 1 (weighted, old_wt) cur)
      as [weighted' old_wt'] eqn:E.
    destruct j as [|j].
    + simpl nth. rewrite Nat.add_0_r. exact Hw'.
    + cbn [nth].
      cbn [fst snd] in Hw', Ho'.
      assert (Happ : seen ++ cur :: rest = (seen ++ [cur]) ++ rest).
      { rewrite <- app_assoc. reflexivity. }
      assert (Hl : length (seen ++ [cur]) = S (length seen)).
      { rewrite length_app. simpl. lia. }
      rewrite Happ.
      replace (length seen + S j)%nat with (length (seen ++ [cur]) + j)%nat by lia.
      apply IH.
      * destruct seen; discriminate.
      * rewrite Hl, <- Happ. simpl. rewrite Nat.sub_0_r. exact Hw'.
      * rewrite Hl. simpl. rewrite Nat.sub_0_r. exact Ho'.
      * simpl in Hj. lia.
Qed.

End EwmLoop.

(** ** [ewm(span).mean()] is the cumulative-weighted average *)

Lemma weight_alpha_ext a b k : a == b -> weight a k == weight b k.
Proof. intros E. unfold weight. rewrite E. reflexivity. Qed.

Lemma cumulative_weighted_average_alpha_ext a b close i :
  a == b ->
  cumulative_weighted_average a close i == cumulative_weighted_average b close i.
Proof.
  intros E. unfold cumulative_weighted_average, weighted_sum, weight_sum.
  apply Qdiv_comp; apply sigma_ext; intros k _.
  - rewrite (weight_alpha_ext a b k E). reflexivity.
  - apply weight_alpha_ext, E.
Qed.

Lemma ewm_mean_length span vals :
  length (Pandas.ewm_mean span vals) = length vals.
Proof.
  unfold Pandas.ewm_mean, Pandas.ewm. destruct vals as [|v0 rest].
  - reflexivity.
  - simpl. rewrite ewm_loop_length. reflexivity.
Qed.

Lemma ewm_mean_nth span vals i :
  Pandas.alpha_of_span span <= 1 ->
  (i < length vals)%nat ->
  nth i (Pandas.ewm_mean span vals) 0
  == cumulative_weighted_average (Pandas.alpha_of_span span) vals i.
Proof.
  intros Ha Hi. unfold Pandas.ewm_mean, Pandas.ewm.
  fold (Pandas.alpha_of_span span).
  destruct vals as [|v0 rest]; [simpl in Hi; lia|].
  destruct i as [|j].
  - simpl nth. unfold cumulative_weighted_average.
    rewrite weighted_sum_0. unfold weight_sum. simpl sigma.
    rewrite weight_0. simpl nth. field.
  - cbn [nth].
    change (v0 :: rest) with ([v0] ++ rest).
    change (S j) with (length [v0] + j)%nat.
    apply ewm_loop_nth.
    + exact Ha.
    + discriminate.
    + simpl length. simpl Nat.sub. unfold cumulative_weighted_average.
      rewrite weighted_sum_0. unfold weight_sum. simpl sigma.
      rewrite weight_0. simpl nth. field.
    + reflexivity.
    + simpl in Hi. lia.
Qed.

(** The three spans of the program. *)
Lemma alpha_of_span_smoothing span :
  In span [9; 50; 200]%Z ->
  Pandas.alpha_of_span (inject_Z span) == smoothing span
  /\ Pandas.alpha_of_span (inject_Z span) <= 1.
Proof.
  intros [E | [E | [E | []]]]; subst span; split; vm_compute; congruence.
Qed.

Lemma ema_column_enriched span data :
  In span [9; 50; 200]%Z ->
  ema_column span (add_calculated_fields data)
  = Some (Pandas.ewm_mean (inject_Z span) (col_Close data)).
Proof.
  intros [E | [E | [E | []]]]; subst span; reflexivity.
Qed.

Lemma fetch_stock_data_nonempty history symbol period raw :
  history symbol period = Return raw ->
  rows raw <> [] ->
  fetch_stock_data history symbol period = Return ([], Some (add_calculated_fields raw)).
Proof.
  intros Hh Hne. unfold fetch_stock_data, fetch_stock_data_try.
  rewrite Hh. simpl. unfold empty.
  destruct (rows raw); [congruence | reflexivity].
Qed.

(** ** The moving averages of the enriched frame *)

Lemma enriched_ema history symbol period raw span :
  history symbol period = Return raw ->
  rows raw <> [] ->
  In span [9; 50; 200]%Z ->
  exists data ema,
    fetch_stock_data history symbol period = Return ([], Some data)
    /\ ema_column span data = Some ema
    /\ length ema = length (col_Close raw)
    /\ forall i, (i < length (col_Close raw))%nat ->
         nth i ema 0
         == cumulative_weighted_average (smoothing span) (col_Close raw) i.
Proof.
  intros Hh Hne Hs.
  exists (add_calculated_fields raw), (Pandas.ewm_mean (inject_Z span) (col_Close raw)).
  destruct (alpha_of_span_smoothing span Hs) as [Ha Hle].
  repeat split.
  - apply fetch_stock_data_nonempty; assumption.
  - apply ema_column_enriched, Hs.
  - apply ewm_mean_length.
  - intros i Hi. rewrite ewm_mean_nth by assumption.
    apply cumulative_weighted_average_alpha_ext, Ha.
Qed.

(** C2.  For every non-empty price history and each span [s] in
    {9, 50, 200}, the moving-average column of the enriched frame has, at
    every index [i], the value
    [(sum_{k=0..i} (1-a)^k * close[i-k]) / (sum_{k=0..i} (1-a)^k)] with
    [a = 2/(s+1)]: the average of the closes seen so far, the close [k] bars
    back weighted by [(1-a)^k], normalised by the sum of the weights. *)
Theorem ema_cumulative_weighted history symbol period raw span :
  history symbol period = Return raw ->
  rows raw <> [] ->
  In span [9; 50; 200]%Z ->
  exists data ema,
    fetch_stock_data history symbol period = Return ([], Some data)
    /\ ema_column span data = Some ema
    /\ length ema = len raw
    /\ forall i, (i < len raw)%nat ->
         nth i ema 0
         == cumulative_weighted_average (smoothing span) (col_Close raw) i.
Proof.
  intros Hh Hne Hs.
  destruct (enriched_ema history symbol period raw span Hh Hne Hs)
    as (data & ema & Hf & Hc & Hl & Hv).
  unfold col_Close in Hl, Hv. rewrite length_map in Hl, Hv.
  exists data, ema. auto.
Qed.

Lemma ema_cumulative_weighted_witness :
  provider_of three_bars "^GSPC" "2y" = Return (fetched three_bars)
  /\ rows (fetched three_bars) <> []
  /\ In 9%Z [9; 50; 200]%Z
  /\ exists data ema,
       fetch_stock_data (provider_of three_bars) "^GSPC" "2y" = Return ([], Some data)
       /\ ema_column 9 data = Some ema
       /\ length ema = len (fetched three_bars)
       /\ forall i, (i < len (fetched three_bars))%nat ->
            nth i ema 0
            == cumulative_weighted_average (smoothing 9)
                 (col_Close (fetched three_bars)) i.
Proof.
  assert (H1 : provider_of three_bars "^GSPC" "2y" = Return (fetched three_bars))
    by reflexivity.
  assert (H2 : rows (fetched three_bars) <> []) by discriminate.
  assert (H3 : In 9%Z [9; 50; 200]%Z) by (simpl; auto).
  exact (conj H1 (conj H2 (conj H3
    (ema_cumulative_weighted (provider_of three_bars) "^GSPC" "2y"
       (fetched three_bars) 9 H1 H2 H3)))).
Defined.

(** C1, as the code has it.  For every non-empty price history and each
    span [s] in {9, 50, 200}, the moving-average column has the length of
    the input, its value at index 0 is [close[0]], and for every [i >= 1]
    it satisfies the recursive form
    [ema[i] = a_i * close[i] + (1 - a_i) * ema[i-1]] with the factor
    [a_i = 1 / sum_{k=0..i} (1-a)^k], where [a = 2/(s+1)]. *)
Theorem ema_weighted_recursive history symbol period raw span :
  history symbol period = Return raw ->
  rows raw <> [] ->
  In span [9; 50; 200]%Z ->
  exists data ema,
    fetch_stock_data history symbol period = Return ([], Some data)
    /\ ema_column span data = Some ema
    /\ weighted_recursive_ema span (col_Close raw) ema.
Proof.
  intros Hh Hne Hs.
  destruct (enriched_ema history symbol period raw span Hh Hne Hs)
    as (data & ema & Hf & Hc & Hl & Hv).
  exists data, ema. split; [exact Hf|]. split; [exact Hc|].
  assert (Hle : smoothing span <= 1).
  { destruct (alpha_of_span_smoothing span Hs) as [Ha Hle].
    rewrite <- Ha. exact Hle. }
  split; [exact Hl|]. split.
  - assert (Hpos : (0 < length (col_Close raw))%nat).
    { unfold col_Close. rewrite length_map.
      destruct (rows raw); [congruence | simpl; lia]. }
    rewrite (Hv 0%nat Hpos). unfold cumulative_weighted_average.
    rewrite weighted_sum_0. unfold weight_sum. simpl sigma.
    rewrite weight_0. field.
  - intros i [Hi1 Hi2]. unfold recursive_form_at.
    destruct i as [|j]; [lia|].
    replace (S j - 1)%nat with j by lia.
    rewrite (Hv (S j)) by lia. rewrite (Hv j) by lia.
    unfold cumulative_weighted_average.
    rewrite weighted_sum_S, weight_sum_S.
    pose proof (weight_sum_nonzero (smoothing span) Hle j) as HW.
    pose proof (weight_sum_succ_nonzero (smoothing span) Hle j) as HW'.
    field. split; assumption.
Qed.

Lemma ema_weighted_recursive_witness :
  provider_of two_bars "^GSPC" "2y" = Return (fetched two_bars)
  /\ rows (fetched two_bars) <> []
  /\ In 9%Z [9; 50; 200]%Z
  /\ exists data ema,
       fetch_stock_data (provider_of two_bars) "^GSPC" "2y" = Return ([], Some data)
       /\ ema_column 9 data = Some ema
       /\ weighted_recursive_ema 9 (col_Close (fetched two_bars)) ema.
Proof.
  assert (H1 : provider_of two_bars "^GSPC" "2y" = Return (fetched two_bars))
    by reflexivity.
  assert (H2 : rows (fetched two_bars) <> []) by discriminate.
  assert (H3 : In 9%Z [9; 50; 200]%Z) by (simpl; auto).
  exact (conj H1 (conj H2 (conj H3
    (ema_weighted_recursive (provider_of two_bars) "^GSPC" "2y"
       (fetched two_bars) 9 H1 H2 H3)))).
Defined.

(** C1, as the specification states it, fails.  On the two closes 100 and
    110 the 9-bar column is [100; 19000/180] (105.56 at index 1), and the
    simple recursive form with the constant factor [2/10] asks for
    [0.2 * 110 + 0.8 * 100 = 102] at index 1. *)
Lemma ema_simple_recursive_fails :
  fetch_stock_data (provider_of two_bars) "^GSPC" "2y"
  = Return ([], Some (add_calculated_fields (fetched two_bars)))
  /\ col_Close (fetched two_bars) = [100; 110]
  /\ ema_column 9 (add_calculated_fields (fetched two_bars))
     = Some [100; 19000 # 180]
  /\ ~ simple_recursive_ema 9 [100; 110] [100; 19000 # 180].
Proof.
  split; [reflexivity|]. split; [reflexivity|]. split; [reflexivity|].
  intros (_ & _ & H).
  specialize (H 1%nat). unfold recursive_form_at in H.
  assert (Hi : (1 <= 1 < length [100; 110])%nat) by (simpl; lia).
  specialize (H Hi). vm_compute in H. discriminate H.
Qed.

(** ** The returns column *)

Lemma pct_change_tail prev rest :
  map (fun p => Pandas.cell_map (fun r => r - 1)
                  (Pandas.cell_div (Some (fst p)) (snd p)))
      (combine rest (map Some (removelast (prev :: rest))))
  = changes_after prev rest.
Proof.
  revert prev. induction rest as [|cur rest' IH]; intros prev.
  - reflexivity.
  - change (removelast (prev :: cur :: rest'))
      with (prev :: removelast (cur :: rest')).
    simpl. f_equal. apply IH.
Qed.

Lemma pct_change_cons v0 rest :
  Pandas.pct_change (v0 :: rest) = None :: changes_after v0 rest.
Proof.
  unfold Pandas.pct_change, Pandas.shift1.
  change (combine (v0 :: rest) (None :: map Some (removelast (v0 :: rest))))
    with ((v0, @None Q) :: combine rest (map Some (removelast (v0 :: rest)))).
  rewrite map_cons. f_equal. apply pct_change_tail.
Qed.

Lemma changes_after_length prev rest :
  length (changes_after prev rest) = length rest.
Proof.
  revert prev. induction rest as [|cur rest' IH]; intros prev; simpl.
  - reflexivity.
  - rewrite IH. reflexivity.
Qed.

Lemma pct_change_length vals :
  length (Pandas.pct_change vals) = length vals.
Proof.
  destruct vals as [|v0 rest].
  - reflexivity.
  - rewrite pct_change_cons. simpl. rewrite changes_after_length. reflexivity.
Qed.

Lemma changes_after_nth_error prev rest i :
  (i < length rest)%nat ->
  nth_error (changes_after prev rest) i
  = Some (Pandas.cell_map (fun r => r - 1)
            (Pandas.fdiv (nth i rest 0) (nth i (prev :: rest) 0))).
Proof.
  revert prev i. induction rest as [|cur rest' IH]; intros prev i Hi.
  - simpl in Hi. lia.
  - destruct i as [|j].
    + reflexivity.
    + simpl in Hi. cbn [changes_after nth_error].
      rewrite IH by lia. reflexivity.
Qed.

Lemma fdiv_nonzero a b : ~ b == 0 -> Pandas.fdiv a b = Some (a / b).
Proof.
  intros Hb. unfold Pandas.fdiv.
  destruct (Qeq_bool b 0) eqn:E; [|reflexivity].
  apply Qeq_bool_eq in E. contradiction.
Qed.

Lemma positive_closes_nth bars i :
  positive_closes bars ->
  (i < length bars)%nat ->
  0 < nth i (map Close bars) 0.
Proof.
  intros Hp. revert i. induction Hp as [|b bars Hb _ IH]; intros i Hi.
  - simpl in Hi. lia.
  - destruct i as [|j]; simpl.
    + exact Hb.
    + apply IH. simpl in Hi. lia.
Qed.


(** The returns column, row by row. *)
Lemma pct_change_nth_error close i :
  (1 <= i < length close)%nat ->
  ~ nth (i - 1) close 0 == 0 ->
  exists r,
    nth_error (Pandas.pct_change close) i = Some (Some r)
    /\ r == daily_return close i.
Proof.
  intros [Hi1 Hi2] Hnz.
  destruct close as [|v0 rest]; [simpl in Hi2; lia|].
  destruct i as [|j]; [lia|].
  replace (S j - 1)%nat with j in * by lia.
  rewrite pct_change_cons. cbn [nth_error].
  rewrite changes_after_nth_error by (simpl in Hi2; lia).
  rewrite fdiv_nonzero by exact Hnz.
  eexists. split; [reflexivity|].
  unfold daily_return. replace (S j - 1)%nat with j by lia.
  cbn [nth]. field. exact Hnz.
Qed.



(** ** Positional indexing *)

Lemma iloc_from_start {A : Type} (s : list A) (k : nat) (d : A) :
  (k < length s)%nat ->
  iloc s (Z.of_nat k) = Return (nth k s d).
Proof.
  intros Hk. unfold iloc.
  destruct (Z.of_nat k <? 0)%Z eqn:E1; [apply Z.ltb_lt in E1; lia|].
  rewrite E1.
  destruct (Z.of_nat (length s) <=? Z.of_nat k)%Z eqn:E2;
    [apply Z.leb_le in E2; lia|].
  cbn [orb]. rewrite Nat2Z.id.
  rewrite (nth_error_nth' s d Hk). reflexivity.
Qed.

Lemma iloc_from_end {A : Type} (s : list A) (k : nat) (d : A) :
  (1 <= k <= length s)%nat ->
  iloc s (- Z.of_nat k) = Return (nth (length s - k) s d).
Proof.
  intros Hk. unfold iloc.
  destruct (- Z.of_nat k <? 0)%Z eqn:E1; [|apply Z.ltb_ge in E1; lia].
  destruct (Z.of_nat (length s) + - Z.of_nat k <? 0)%Z eqn:E2;
    [apply Z.ltb_lt in E2; lia|].
  destruct (Z.of_nat (length s) <=? Z.of_nat (length s) + - Z.of_nat k)%Z eqn:E3;
    [apply Z.leb_le in E3; lia|].
  cbn [orb].
  replace (Z.to_nat (Z.of_nat (length s) + - Z.of_nat k))
    with (length s - k)%nat by lia.
  assert (Hlt : (length s - k < length s)%nat) by lia.
  rewrite (nth_error_nth' s d Hlt). reflexivity.
Qed.

Lemma iloc_first {A : Type} (s : list A) (d : A) :
  (1 <= length s)%nat -> iloc s 0 = Return (nth 0 s d).
Proof. intros H. apply (iloc_from_start s 0 d). lia. Qed.

Lemma iloc_last {A : Type} (s : list A) (d : A) :
  (1 <= length s)%nat -> iloc s (-1) = Return (nth (length s - 1) s d).
Proof. intros H. apply (iloc_from_end s 1 d). lia. Qed.

Lemma iloc_last_but_one {A : Type} (s : list A) (d : A) :
  (2 <= length s)%nat -> iloc s (-2) = Return (nth (length s - 2) s d).
Proof. intros H. apply (iloc_from_end s 2 d). lia. Qed.

(** ** The key metrics of a frame that is not empty *)

Lemma key_metrics_run data returns :
  rows data <> [] ->
  Returns data = Some returns ->
  let n := len data in
  let close := col_Close data in
  let current := nth (n - 1) close 0 in
  let previous := if (1 <? n)%nat then nth (n - 2) close 0 else current in
  let start := nth 0 close 0 in
  key_metrics data
  = Return
      (mkKeyMetrics current previous (current - previous)
         (Pandas.cell_map (fun r => r * 100)
            (Pandas.fdiv (current - previous) previous))
         start
         (Pandas.cell_map (fun r => r * 100)
            (Pandas.fdiv (current - start) start))
         (option_map annualize_std (Pandas.std (Pandas.dropna returns)))
         (Pandas.cell_map (fun r => r * 252 * 100)
            (Pandas.mean (Pandas.dropna returns)))
         (Pandas.mean (map inject_Z (col_Volume data)))
         (nth (n - 1) (col_Volume data) 0%Z)
         (nth 0 (index data) 0%Z)
         (nth (n - 1) (index data) 0%Z)).
Proof.
  intros Hne Hr. cbv zeta.
  assert (Hn : (1 <= len data)%nat).
  { unfold len. destruct (rows data); [congruence | simpl; lia]. }
  assert (Hc : length (col_Close data) = len data) by apply length_map.
  assert (Hv : length (col_Volume data) = len data) by apply length_map.
  assert (Hx : length (index data) = len data) by apply length_map.
  unfold key_metrics. rewrite Hr.
  rewrite (iloc_last (col_Close data) 0) by lia.
  rewrite (iloc_first (col_Close data) 0) by lia.
  rewrite (iloc_last (col_Volume data) 0%Z) by lia.
  rewrite (iloc_first (index data) 0%Z) by lia.
  rewrite (iloc_last (index data) 0%Z) by lia.
  rewrite Hc, Hv, Hx.
  destruct (1 <? len data)%nat eqn:E.
  - apply Nat.ltb_lt in E.
    rewrite (iloc_last_but_one (col_Close data) 0) by lia.
    rewrite Hc. reflexivity.
  - reflexivity.
Qed.

(** The statistics pane of an enriched frame. *)
Lemma enriched_stats_panel raw :
  rows raw <> [] ->
  let n := len raw in
  let close := col_Close raw in
  let current := nth (n - 1) close 0 in
  let previous := if (1 <? n)%nat then nth (n - 2) close 0 else current in
  let start := nth 0 close 0 in
  let returns := Pandas.dropna (Pandas.pct_change close) in
  create_stats_panel (Some (add_calculated_fields raw))
  = Return (MarkdownStats
      (mkKeyMetrics current previous (current - previous)
         (Pandas.cell_map (fun r => r * 100)
            (Pandas.fdiv (current - previous) previous))
         start
         (Pandas.cell_map (fun r => r * 100)
            (Pandas.fdiv (current - start) start))
         (option_map annualize_std (Pandas.std returns))
         (Pandas.cell_map (fun r => r * 252 * 100) (Pandas.mean returns))
         (Pandas.mean (map inject_Z (col_Volume raw)))
         (nth (n - 1) (col_Volume raw) 0%Z)
         (nth 0 (index raw) 0%Z)
         (nth (n - 1) (index raw) 0%Z))).
Proof.
  intros Hne. cbv zeta.
  assert (Hne' : rows (add_calculated_fields raw) <> []) by exact Hne.
  pose proof (key_metrics_run (add_calculated_fields raw)
                (Pandas.pct_change (col_Close raw)) Hne' eq_refl) as Hk.
  cbv zeta in Hk.
  unfold create_stats_panel, empty.
  change (rows (add_calculated_fields raw)) with (rows raw).
  destruct (rows raw) eqn:E; [congruence|].
  rewrite Hk. reflexivity.
Qed.

(** C7.  For every history with exactly one bar, the summary has the prior
    close equal to the last close itself, so the daily change is 0, and the
    period return is 0 (the close being positive, as the data model has
    it). *)
Theorem single_bar_summary history symbol period raw b :
  history symbol period = Return raw ->
  rows raw = [b] ->
  0 < Close b ->
  exists data m,
    fetch_stock_data history symbol period = Return ([], Some data)
    /\ create_stats_panel (Some data) = Return (MarkdownStats m)
    /\ current_price m = Close b
    /\ prev_close m = Close b
    /\ daily_change m == 0
    /\ exists r, period_return m = Some r /\ r == 0.
Proof.
  intros Hh Hb Hpos.
  assert (Hne : rows raw <> []) by (rewrite Hb; discriminate).
  pose proof (enriched_stats_panel raw Hne) as Hs. cbv zeta in Hs.
  unfold len, col_Close in Hs. rewrite Hb in Hs. simpl in Hs.
  eexists. eexists.
  split; [apply fetch_stock_data_nonempty; eassumption|].
  split; [exact Hs|].
  cbn [current_price prev_close daily_change period_return].
  split; [reflexivity|]. split; [reflexivity|].
  split; [ring|].
  rewrite fdiv_nonzero by (apply Qnot_eq_sym, Qlt_not_eq, Hpos).
  eexists. split; [reflexivity|].
  field. apply Qnot_eq_sym, Qlt_not_eq, Hpos.
Qed.

Lemma single_bar_summary_witness :
  provider_of one_bar "^GSPC" "2y" = Return (fetched one_bar)
  /\ rows (fetched one_bar) = [bar 1 100 1000]
  /\ 0 < Close (bar 1 100 1000)
  /\ exists data m,
       fetch_stock_data (provider_of one_bar) "^GSPC" "2y" = Return ([], Some data)
       /\ create_stats_panel (Some data) = Return (MarkdownStats m)
       /\ current_price m = Close (bar 1 100 1000)
       /\ prev_close m = Close (bar 1 100 1000)
       /\ daily_change m == 0
       /\ exists r, period_return m = Some r /\ r == 0.
Proof.
  assert (H1 : provider_of one_bar "^GSPC" "2y" = Return (fetched one_bar))
    by reflexivity.
  assert (H2 : rows (fetched one_bar) = [bar 1 100 1000]) by reflexivity.
  assert (H3 : 0 < Close (bar 1 100 1000)) by reflexivity.
  exact (conj H1 (conj H2 (conj H3
    (single_bar_summary (provider_of one_bar) "^GSPC" "2y"
       (fetched one_bar) (bar 1 100 1000) H1 H2 H3)))).
Defined.

(** C8.  For every non-empty history (closes positive), the summary's
    period return is [(close[last] - close[0]) / close[0] * 100]; for the
    closes 100, 110, 121 it is 21. *)
Theorem period_return_summary history symbol period raw :
  history symbol period = Return raw ->
  rows raw <> [] ->
  positive_closes (rows raw) ->
  exists data m r,
    fetch_stock_data history symbol period = Return ([], Some data)
    /\ create_stats_panel (Some data) = Return (MarkdownStats m)
    /\ period_return m = Some r
    /\ r == (nth (len raw - 1) (col_Close raw) 0 - nth 0 (col_Close raw) 0)
            / nth 0 (col_Close raw) 0 * 100
    /\ (col_Close raw = [100; 110; 121] -> r == 21).
Proof.
  intros Hh Hne Hp.
  pose proof (enriched_stats_panel raw Hne) as Hs. cbv zeta in Hs.
  assert (Hnz : ~ nth 0 (col_Close raw) 0 == 0).
  { apply Qnot_eq_sym, Qlt_not_eq, positive_closes_nth; [exact Hp|].
    destruct (rows raw); [congruence | simpl; lia]. }
  rewrite (fdiv_nonzero _ _ Hnz) in Hs.
  eexists. eexists. eexists.
  split; [apply fetch_stock_data_nonempty; eassumption|].
  split; [exact Hs|].
  cbn [period_return Pandas.cell_map].
  split; [reflexivity|]. split; [reflexivity|].
  intros Hc.
  assert (Hl : len raw = 3%nat).
  { unfold len. rewrite <- (length_map Close). fold (col_Close raw).
    rewrite Hc. reflexivity. }
  rewrite Hl, Hc. reflexivity.
Qed.

Lemma period_return_summary_witness :
  provider_of three_bars "^GSPC" "2y" = Return (fetched three_bars)
  /\ rows (fetched three_bars) <> []
  /\ positive_closes (rows (fetched three_bars))
  /\ exists data m r,
       fetch_stock_data (provider_of three_bars) "^GSPC" "2y" = Return ([], Some data)
       /\ create_stats_panel (Some data) = Return (MarkdownStats m)
       /\ period_return m = Some r
       /\ r == (nth (len (fetched three_bars) - 1)
                    (col_Close (fetched three_bars)) 0
                - nth 0 (col_Close (fetched three_bars)) 0)
               / nth 0 (col_Close (fetched three_bars)) 0 * 100
       /\ (col_Close (fetched three_bars) = [100; 110; 121] -> r == 21).
Proof.
  assert (H1 : provider_of three_bars "^GSPC" "2y" = Return (fetched three_bars))
    by reflexivity.
  assert (H2 : rows (fetched three_bars) <> []) by discriminate.
  assert (H3 : positive_closes (rows (fetched three_bars))).
  { repeat constructor. }
  exact (conj H1 (conj H2 (conj H3
    (period_return_summary (provider_of three_bars) "^GSPC" "2y"
       (fetched three_bars) H1 H2 H3)))).
Defined.

(** ** Mean and standard deviation *)

Lemma dropna_defined_values s : Pandas.dropna s = defined_values s.
Proof.
  induction s as [|[v|] rest IH]; simpl.
  - reflexivity.
  - rewrite IH. reflexivity.
  - exact IH.
Qed.

Lemma dropna_map_Some xs : Pandas.dropna (map Some xs) = xs.
Proof.
  induction xs as [|x rest IH]; simpl.
  - reflexivity.
  - rewrite IH. reflexivity.
Qed.

Lemma sum_map_sigma (f : Q -> Q) x xs :
  Pandas.sum (map f (x :: xs)) == sigma (length xs) (fun k => f (nth k (x :: xs) 0)).
Proof.
  revert x. induction xs as [|y rest IH]; intros x.
  - simpl. ring.
  - change (length (y :: rest)) with (S (length rest)).
    rewrite sigma_shift.
    change (Pandas.sum (map f (x :: y :: rest)))
      with (f x + Pandas.sum (map f (y :: rest))).
    rewrite IH. reflexivity.
Qed.

Lemma sum_sigma x xs :
  Pandas.sum (x :: xs) == sigma (length xs) (fun k => nth k (x :: xs) 0).
Proof.
  rewrite <- (map_id (x :: xs)) at 1. apply (sum_map_sigma (fun v => v)).
Qed.

Lemma mean_arithmetic_mean xs :
  cell_eq (Pandas.mean xs) (arithmetic_mean xs).
Proof.
  destruct xs as [|x rest].
  - exact I.
  - change (Pandas.sum (x :: rest) / Pandas.count (x :: rest)
            == sigma (length rest) (fun k => nth k (x :: rest) 0)
               / inject_Z (Z.of_nat (S (length rest)))).
    rewrite sum_sigma. reflexivity.
Qed.

Lemma var_sample_variance xs :
  cell_eq (Pandas.var 1 xs) (sample_variance xs).
Proof.
  destruct xs as [|x [|y rest]]; try exact I.
  unfold Pandas.var, sample_variance, arithmetic_mean, cell_eq.
  change (length (x :: y :: rest)) with (S (S (length rest))).
  change (S (S (length rest)) <=? 1)%nat with false. cbv iota.
  rewrite (sum_map_sigma _ x (y :: rest)).
  change (length (y :: rest)) with (S (length rest)).
  apply Qdiv_comp; [|reflexivity].
  apply sigma_ext; intros k _.
  rewrite (sum_sigma x (y :: rest)).
  change (length (y :: rest)) with (S (length rest)).
  unfold Pandas.count.
  change (length (x :: y :: rest)) with (S (S (length rest))).
  ring.
Qed.

Lemma std_sample_stddev xs : Pandas.std xs = sample_stddev xs.
Proof.
  unfold Pandas.std, sample_stddev.
  pose proof (var_sample_variance xs) as H.
  destruct (Pandas.var 1 xs) as [v|], (sample_variance xs) as [w|];
    simpl in H; try contradiction.
  - simpl. rewrite (Qeq_eqR v w H). reflexivity.
  - reflexivity.
Qed.

(** ** A flat history *)

Lemma changes_after_flat p prev rest :
  ~ p == 0 ->
  prev == p ->
  Forall (fun c => c == p) rest ->
  exists rs,
    changes_after prev rest = map Some rs
    /\ length rs = length rest
    /\ Forall (fun r => r == 0) rs.
Proof.
  intros Hp. revert prev.
  induction rest as [|cur rest' IH]; intros prev Hprev Hall.
  - exists []. repeat split. constructor.
  - inversion Hall as [|c l Hcur Hrest]; subst.
    destruct (IH cur Hcur Hrest) as (rs & Hrs & Hlen & Hzero).
    assert (Hnz : ~ prev == 0) by (rewrite Hprev; exact Hp).
    exists ((cur / prev - 1) :: rs).
    cbn [changes_after]. rewrite (fdiv_nonzero cur prev Hnz), Hrs.
    split; [reflexivity|]. split; [simpl; rewrite Hlen; reflexivity|].
    constructor; [|exact Hzero].
    rewrite Hcur, Hprev. field. exact Hp.
Qed.

Lemma sum_zero xs : Forall (fun r => r == 0) xs -> Pandas.sum xs == 0.
Proof.
  induction 1 as [|x rest Hx _ IH]; simpl.
  - reflexivity.
  - rewrite Hx, IH. reflexivity.
Qed.

Lemma mean_zero xs :
  xs <> [] ->
  Forall (fun r => r == 0) xs ->
  exists mu, Pandas.mean xs = Some mu /\ mu == 0.
Proof.
  intros Hne Hz. destruct xs as [|x rest]; [congruence|].
  eexists. split; [reflexivity|].
  rewrite (sum_zero _ Hz). unfold Qdiv. ring.
Qed.

Lemma var_zero xs :
  (2 <= length xs)%nat ->
  Forall (fun r => r == 0) xs ->
  exists v, Pandas.var 1 xs = Some v /\ v == 0.
Proof.
  intros Hlen Hz. unfold Pandas.var.
  destruct (length xs <=? 1)%nat eqn:E; [apply Nat.leb_le in E; lia|].
  eexists. split; [reflexivity|].
  assert (Hsq : Forall (fun r => r == 0)
                  (map (fun v => (Pandas.sum xs / Pandas.count xs - v)
                                 * (Pandas.sum xs / Pandas.count xs - v)) xs)).
  { rewrite Forall_map.
    eapply Forall_impl; [|exact Hz].
    intros v Hv. cbv beta in *.
    rewrite (sum_zero _ Hz), Hv. unfold Qdiv. ring. }
  rewrite (sum_zero _ Hsq). unfold Qdiv. ring.
Qed.

Lemma std_zero xs :
  (2 <= length xs)%nat ->
  Forall (fun r => r == 0) xs ->
  Pandas.std xs = Some 0%R.
Proof.
  intros Hlen Hz. unfold Pandas.std.
  destruct (var_zero xs Hlen Hz) as (v & Hv & Hv0).
  rewrite Hv. rewrite (Qeq_eqR v 0 Hv0), RMicromega.Q2R_0, sqrt_0.
  reflexivity.
Qed.

Lemma flat_closes bars p :
  Forall (fun b => Close b == p) bars ->
  Forall (fun c => c == p) (map Close bars).
Proof. intros H. rewrite Forall_map. exact H. Qed.

(** ** The annualised figures of the summary *)

(** C5, as the code has it.  For every enriched history, the summary's
    annualised volatility is the sample standard deviation of the defined
    daily returns times [sqrt 252] times 100, and its annualised return is
    their arithmetic mean times 252 times 100 (each NaN where the standard
    deviation or the mean is not defined); for a flat close series of
    three bars or more (ten bars at 100, say) both are 0. *)
Theorem annualized_summary history symbol period raw :
  history symbol period = Return raw ->
  rows raw <> [] ->
  exists data returns m,
    fetch_stock_data history symbol period = Return ([], Some data)
    /\ Returns data = Some returns
    /\ create_stats_panel (Some data) = Return (MarkdownStats m)
    /\ volatility m
       = option_map (fun sd => (sd * sqrt 252 * 100)%R)
           (sample_stddev (defined_values returns))
    /\ cell_eq (annualized_return m)
         (option_map (fun mu => mu * 252 * 100)
            (arithmetic_mean (defined_values returns)))
    /\ forall p,
         0 < p ->
         Forall (fun b => Close b == p) (rows raw) ->
         (3 <= len raw)%nat ->
         volatility m = Some 0%R
         /\ exists r, annualized_return m = Some r /\ r == 0.
Proof.
  intros Hh Hne.
  pose proof (enriched_stats_panel raw Hne) as Hs. cbv zeta in Hs.
  exists (add_calculated_fields raw), (Pandas.pct_change (col_Close raw)).
  eexists.
  split; [apply fetch_stock_data_nonempty; assumption|].
  split; [reflexivity|].
  split; [exact Hs|].
  cbn [volatility annualized_return].
  split; [|split].
  - rewrite <- dropna_defined_values, <- std_sample_stddev. reflexivity.
  - rewrite <- dropna_defined_values.
    pose proof (mean_arithmetic_mean
                  (Pandas.dropna (Pandas.pct_change (col_Close raw)))) as H.
    destruct (Pandas.mean _) as [a|], (arithmetic_mean _) as [b|];
      simpl in *; try contradiction; [|exact I].
    rewrite H. reflexivity.
  - intros p Hp Hflat Hlen.
    assert (Hpz : ~ p == 0) by (apply Qnot_eq_sym, Qlt_not_eq, Hp).
    unfold col_Close, len in *.
    destruct (rows raw) as [|b bars]; [congruence|].
    inversion Hflat as [|b' l Hb Hbars]; subst.
    cbn [map]. rewrite pct_change_cons.
    destruct (changes_after_flat p (Close b) (map Close bars) Hpz Hb
                (flat_closes bars p Hbars)) as (rs & Hrs & Hl & Hz).
    rewrite Hrs. cbn [Pandas.dropna]. rewrite dropna_map_Some.
    rewrite length_map in Hl. simpl in Hlen.
    split.
    + rewrite (std_zero rs) by (try lia; exact Hz).
      simpl. unfold annualize_std. f_equal. ring.
    + destruct (mean_zero rs) as (mu & Hmu & Hmu0).
      * destruct rs; [simpl in Hl; lia | discriminate].
      * exact Hz.
      * rewrite Hmu. eexists. split; [reflexivity|].
        cbv beta. rewrite Hmu0. ring.
Qed.

Lemma annualized_summary_witness :
  provider_of ten_flat_bars "^GSPC" "2y" = Return (fetched ten_flat_bars)
  /\ rows (fetched ten_flat_bars) <> []
  /\ 0 < 100
  /\ Forall (fun b => Close b == 100) (rows (fetched ten_flat_bars))
  /\ (3 <= len (fetched ten_flat_bars))%nat
  /\ exists data returns m,
       fetch_stock_data (provider_of ten_flat_bars) "^GSPC" "2y"
       = Return ([], Some data)
       /\ Returns data = Some returns
       /\ create_stats_panel (Some data) = Return (MarkdownStats m)
       /\ volatility m
          = option_map (fun sd => (sd * sqrt 252 * 100)%R)
              (sample_stddev (defined_values returns))
       /\ cell_eq (annualized_return m)
            (option_map (fun mu => mu * 252 * 100)
               (arithmetic_mean (defined_values returns)))
       /\ volatility m = Some 0%R
       /\ exists r, annualized_return m = Some r /\ r == 0.
Proof.
  assert (H1 : provider_of ten_flat_bars "^GSPC" "2y"
               = Return (fetched ten_flat_bars)) by reflexivity.
  assert (H2 : rows (fetched ten_flat_bars) <> []) by discriminate.
  assert (H3 : 0 < 100) by reflexivity.
  assert (H4 : Forall (fun b => Close b == 100) (rows (fetched ten_flat_bars))).
  { repeat (constructor; try reflexivity). }
  assert (H5 : (3 <= len (fetched ten_flat_bars))%nat) by (vm_compute; lia).
  destruct (annualized_summary (provider_of ten_flat_bars) "^GSPC" "2y"
              (fetched ten_flat_bars) H1 H2)
    as (data & returns & m & Hf & Hr & Hs & Hv & Ha & Hflat).
  destruct (Hflat 100 H3 H4 H5) as [Hv0 Ha0].
  refine (conj H1 (conj H2 (conj H3 (conj H4 (conj H5 _))))).
  exists data, returns, m.
  exact (conj Hf (conj Hr (conj Hs (conj Hv (conj Ha (conj Hv0 Ha0)))))).
Defined.

(** C5, as the specification states it, fails.  Two bars, both at 100,
    are a flat close series; the one defined return is 0, the annualised
    return is 0, and the annualised volatility is NaN, not 0: the sample
    standard deviation of one value is not defined. *)
Lemma flat_two_bars_volatility_undefined :
  Forall (fun b => Close b == 100) two_flat_bars
  /\ fetch_stock_data (provider_of two_flat_bars) "^GSPC" "2y"
     = Return ([], Some (add_calculated_fields (fetched two_flat_bars)))
  /\ Returns (add_calculated_fields (fetched two_flat_bars))
     = Some [None; Some (100 / 100 - 1)]
  /\ exists m,
       create_stats_panel (Some (add_calculated_fields (fetched two_flat_bars)))
       = Return (MarkdownStats m)
       /\ volatility m = None
       /\ volatility m <> Some 0%R.
Proof.
  split; [repeat (constructor; try reflexivity)|].
  split; [reflexivity|]. split; [reflexivity|].
  assert (Hne : rows (fetched two_flat_bars) <> []) by discriminate.
  pose proof (enriched_stats_panel (fetched two_flat_bars) Hne) as Hs.
  cbv zeta in Hs.
  eexists. split; [exact Hs|].
  cbn [volatility]. split; [reflexivity | discriminate].
Qed.

(** C10.  For a history with exactly one bar there is no defined daily
    return, and the summary's annualised return and annualised volatility
    are both NaN, not 0.  For a history with exactly two bars there is one
    defined return: the annualised volatility is NaN again (the sample
    standard deviation needs two values) and the annualised return is a
    number. *)
Theorem short_history_annualized history symbol period raw :
  history symbol period = Return raw ->
  rows raw <> [] ->
  exists data m,
    fetch_stock_data history symbol period = Return ([], Some data)
    /\ create_stats_panel (Some data) = Return (MarkdownStats m)
    /\ (len raw = 1%nat ->
        annualized_return m = None /\ volatility m = None)
    /\ (len raw = 2%nat ->
        positive_closes (rows raw) ->
        volatility m = None
        /\ exists r, annualized_return m = Some r
                     /\ r == daily_return (col_Close raw) 1 * 252 * 100).
Proof.
  intros Hh Hne.
  pose proof (enriched_stats_panel raw Hne) as Hs. cbv zeta in Hs.
  eexists. eexists.
  split; [apply fetch_stock_data_nonempty; eassumption|].
  split; [exact Hs|].
  cbn [volatility annualized_return].
  unfold len, col_Close, positive_closes.
  split.
  - intros Hl. destruct (rows raw) as [|b [|b' bars]]; try discriminate Hl.
    split; reflexivity.
  - intros Hl Hp.
    destruct (rows raw) as [|b1 [|b2 [|b3 bars]]]; try discriminate Hl.
    inversion Hp as [|x l Hb1 _]; subst.
    assert (Hnz : ~ Close b1 == 0) by (apply Qnot_eq_sym, Qlt_not_eq, Hb1).
    cbn [map]. rewrite pct_change_cons. cbn [changes_after].
    rewrite (fdiv_nonzero (Close b2) (Close b1) Hnz).
    cbn [Pandas.cell_map Pandas.dropna].
    split; [reflexivity|].
    eexists. split; [reflexivity|].
    unfold daily_return, Pandas.sum, Pandas.count. simpl. field. exact Hnz.
Qed.

Lemma short_history_annualized_witness :
  (provider_of one_bar "^GSPC" "2y" = Return (fetched one_bar)
   /\ rows (fetched one_bar) <> []
   /\ len (fetched one_bar) = 1%nat
   /\ exists data m,
        fetch_stock_data (provider_of one_bar) "^GSPC" "2y" = Return ([], Some data)
        /\ create_stats_panel (Some data) = Return (MarkdownStats m)
        /\ annualized_return m = None /\ volatility m = None)
  /\ (provider_of two_bars "^GSPC" "2y" = Return (fetched two_bars)
      /\ rows (fetched two_bars) <> []
      /\ len (fetched two_bars) = 2%nat
      /\ positive_closes (rows (fetched two_bars))
      /\ exists data m,
           fetch_stock_data (provider_of two_bars) "^GSPC" "2y" = Return ([], Some data)
           /\ create_stats_panel (Some data) = Return (MarkdownStats m)
           /\ volatility m = None
           /\ exists r, annualized_return m = Some r
                        /\ r == daily_return (col_Close (fetched two_bars)) 1
                                * 252 * 100).
Proof.
  split.
  - assert (H1 : provider_of one_bar "^GSPC" "2y" = Return (fetched one_bar))
      by reflexivity.
    assert (H2 : rows (fetched one_bar) <> []) by discriminate.
    assert (H3 : len (fetched one_bar) = 1%nat) by reflexivity.
    destruct (short_history_annualized (provider_of one_bar) "^GSPC" "2y"
                (fetched one_bar) H1 H2) as (data & m & Hf & Hs & Hone & _).
    refine (conj H1 (conj H2 (conj H3 _))).
    exists data, m. exact (conj Hf (conj Hs (Hone H3))).
  - assert (H1 : provider_of two_bars "^GSPC" "2y" = Return (fetched two_bars))
      by reflexivity.
    assert (H2 : rows (fetched two_bars) <> []) by discriminate.
    assert (H3 : len (fetched two_bars) = 2%nat) by reflexivity.
    assert (H4 : positive_closes (rows (fetched two_bars))).
    { repeat constructor. }
    destruct (short_history_annualized (provider_of two_bars) "^GSPC" "2y"
                (fetched two_bars) H1 H2) as (data & m & Hf & Hs & _ & Htwo).
    refine (conj H1 (conj H2 (conj H3 (conj H4 _)))).
    exists data, m. exact (conj Hf (conj Hs (Htwo H3 H4))).
Defined.

(** ** No data *)

(** C3.  When the price history is empty, the engine signals the
    empty-input condition and hands it to its caller, and it computes no
    derived series.  In the code the condition is the [ValueError]
    "No data found for ..." raised in the [try] block before any calculated
    column is made; the caller of [fetch_stock_data] receives it as the
    no-data value [None], with the one printed line that names it.  The
    engine does not recover: it returns no frame in place of the missing
    one, with or without calculated columns. *)
Theorem empty_history_returns_none history symbol period raw :
  history symbol period = Return raw ->
  rows raw = [] ->
  fetch_stock_data_try history symbol period
  = Raise (ValueError ("No data found for " ++ symbol))
  /\ fetch_stock_data history symbol period
     = Return (["Error fetching data for " ++ symbol ++ ": "
                ++ "No data found for " ++ symbol]%string, None)
  /\ ~ raises (fetch_stock_data history symbol period)
  /\ (forall printed data,
        fetch_stock_data history symbol period <> Return (printed, Some data)).
Proof.
  intros Hh He.
  assert (Ht : fetch_stock_data_try history symbol period
               = Raise (ValueError ("No data found for " ++ symbol))).
  { unfold fetch_stock_data_try. rewrite Hh. simpl.
    unfold empty. rewrite He. reflexivity. }
  assert (Hf : fetch_stock_data history symbol period
               = Return (["Error fetching data for " ++ symbol ++ ": "
                          ++ "No data found for " ++ symbol]%string, None)).
  { unfold fetch_stock_data. rewrite Ht. reflexivity. }
  split; [exact Ht|]. split; [exact Hf|]. split.
  - rewrite Hf. intros [e He']. discriminate He'.
  - intros printed data Hsome. rewrite Hf in Hsome. discriminate Hsome.
Qed.

Lemma empty_history_returns_none_witness :
  provider_of [] "^GSPC" "2y" = Return (fetched [])
  /\ rows (fetched []) = []
  /\ fetch_stock_data_try (provider_of []) "^GSPC" "2y"
     = Raise (ValueError "No data found for ^GSPC")
  /\ fetch_stock_data (provider_of []) "^GSPC" "2y"
     = Return (["Error fetching data for ^GSPC: No data found for ^GSPC"%string],
               None)
  /\ ~ raises (fetch_stock_data (provider_of []) "^GSPC" "2y")
  /\ (forall printed data,
        fetch_stock_data (provider_of []) "^GSPC" "2y"
        <> Return (printed, Some data)).
Proof.
  assert (H1 : provider_of [] "^GSPC" "2y" = Return (fetched [])) by reflexivity.
  assert (H2 : rows (fetched []) = []) by reflexivity.
  exact (conj H1 (conj H2
    (empty_history_returns_none (provider_of []) "^GSPC" "2y" (fetched [])
       H1 H2))).
Defined.

(** C6.  For every input that stands for "no data", [None] or a frame
    without rows, neither builder raises: the chart builder returns a
    figure with no series and the "No data available" annotation, and the
    statistics builder returns the "No data available" pane. *)
Theorem no_data_placeholders (data : option DataFrame) (symbol : string) :
  (data = None \/ exists d, data = Some d /\ rows d = []) ->
  length (Plotly.data (create_stock_chart data symbol)) = 0%nat
  /\ Plotly.annotations (create_stock_chart data symbol) = [no_data_annotation]
  /\ Plotly.text no_data_annotation = "No data available"%string
  /\ create_stats_panel data = Return (MarkdownText "**No data available**")
  /\ ~ raises (create_stats_panel data).
Proof.
  intros Hd.
  assert (Hs : create_stats_panel data
               = Return (MarkdownText "**No data available**")).
  { destruct Hd as [-> | (d & -> & He)]; [reflexivity|].
    unfold create_stats_panel, empty. rewrite He. reflexivity. }
  assert (Hc : create_stock_chart data symbol
               = Plotly.add_annotation Plotly.new_Figure no_data_annotation).
  { destruct Hd as [-> | (d & -> & He)]; [reflexivity|].
    unfold create_stock_chart, empty. rewrite He. reflexivity. }
  rewrite Hc, Hs.
  split; [reflexivity|]. split; [reflexivity|]. split; [reflexivity|].
  split; [reflexivity|].
  intros [e He]. discriminate He.
Qed.

Lemma no_data_placeholders_witness :
  (@None DataFrame = None \/ exists d, None = Some d /\ rows d = [])
  /\ (Some no_rows = None \/ exists d, Some no_rows = Some d /\ rows d = [])
  /\ (length (Plotly.data (create_stock_chart None "^GSPC")) = 0%nat
      /\ Plotly.annotations (create_stock_chart None "^GSPC")
         = [no_data_annotation]
      /\ Plotly.text no_data_annotation = "No data available"%string
      /\ create_stats_panel None = Return (MarkdownText "**No data available**")
      /\ ~ raises (create_stats_panel None))
  /\ (length (Plotly.data (create_stock_chart (Some no_rows) "^GSPC")) = 0%nat
      /\ Plotly.annotations (create_stock_chart (Some no_rows) "^GSPC")
         = [no_data_annotation]
      /\ Plotly.text no_data_annotation = "No data available"%string
      /\ create_stats_panel (Some no_rows)
         = Return (MarkdownText "**No data available**")
      /\ ~ raises (create_stats_panel (Some no_rows))).
Proof.
  assert (H1 : @None DataFrame = None
               \/ exists d, None = Some d /\ rows d = [])
    by (left; reflexivity).
  assert (H2 : Some no_rows = None
               \/ exists d, Some no_rows = Some d /\ rows d = [])
    by (right; exists no_rows; split; reflexivity).
  exact (conj H1 (conj H2
    (conj (no_data_placeholders None "^GSPC" H1)
          (no_data_placeholders (Some no_rows) "^GSPC" H2)))).
Defined.

(** ** The frame of the enrichment *)

(** C9.  Enrichment leaves the observations as fetched: after it the frame
    has the rows of the input, so the same index, the same open, high, low,
    close and volume columns and the same number of rows; what it adds is
    the four calculated columns. *)
Theorem enrichment_keeps_observations history symbol period raw :
  history symbol period = Return raw ->
  rows raw <> [] ->
  exists data,
    fetch_stock_data history symbol period = Return ([], Some data)
    /\ rows data = rows raw
    /\ len data = len raw
    /\ index data = index raw
    /\ col_Open data = col_Open raw
    /\ col_High data = col_High raw
    /\ col_Low data = col_Low raw
    /\ col_Close data = col_Close raw
    /\ col_Volume data = col_Volume raw
    /\ Returns data = Some (Pandas.pct_change (col_Close raw))
    /\ EMA_9 data = Some (Pandas.ewm_mean 9 (col_Close raw))
    /\ EMA_50 data = Some (Pandas.ewm_mean 50 (col_Close raw))
    /\ EMA_200 data = Some (Pandas.ewm_mean 200 (col_Close raw)).
Proof.
  intros Hh Hne. exists (add_calculated_fields raw).
  split; [apply fetch_stock_data_nonempty; assumption|].
  repeat split.
Qed.

Lemma enrichment_keeps_observations_witness :
  provider_of three_bars "^GSPC" "2y" = Return (fetched three_bars)
  /\ rows (fetched three_bars) <> []
  /\ exists data,
       fetch_stock_data (provider_of three_bars) "^GSPC" "2y" = Return ([], Some data)
       /\ rows data = rows (fetched three_bars)
       /\ len data = len (fetched three_bars)
       /\ index data = index (fetched three_bars)
       /\ col_Open data = col_Open (fetched three_bars)
       /\ col_High data = col_High (fetched three_bars)
       /\ col_Low data = col_Low (fetched three_bars)
       /\ col_Close data = col_Close (fetched three_bars)
       /\ col_Volume data = col_Volume (fetched three_bars)
       /\ Returns data = Some (Pandas.pct_change (col_Close (fetched three_bars)))
       /\ EMA_9 data = Some (Pandas.ewm_mean 9 (col_Close (fetched three_bars)))
       /\ EMA_50 data = Some (Pandas.ewm_mean 50 (col_Close (fetched three_bars)))
       /\ EMA_200 data
          = Some (Pandas.ewm_mean 200 (col_Close (fetched three_bars))).
Proof.
  assert (H1 : provider_of three_bars "^GSPC" "2y" = Return (fetched three_bars))
    by reflexivity.
  assert (H2 : rows (fetched three_bars) <> []) by discriminate.
  exact (conj H1 (conj H2
    (enrichment_keeps_observations (provider_of three_bars) "^GSPC" "2y"
       (fetched three_bars) H1 H2))).
Defined.

(** ** The whole pipeline *)

(** Whatever the provider does, the statistics builder does not raise on
    what [fetch_stock_data] returns, and neither does the dashboard. *)
Lemma create_stats_panel_of_fetched history symbol period printed data :
  fetch_stock_data history symbol period = Return (printed, data) ->
  exists pane, create_stats_panel data = Return pane.
Proof.
  unfold fetch_stock_data, fetch_stock_data_try.
  destruct (history symbol period) as [raw|e]; simpl.
  - destruct (empty raw) eqn:E; simpl; intros H; inversion H; subst.
    + eexists. reflexivity.
    + assert (Hne : rows raw <> []).
      { unfold empty in E. destruct (rows raw); [discriminate E | discriminate]. }
      pose proof (enriched_stats_panel raw Hne) as Hs. cbv zeta in Hs.
      eexists. exact Hs.
  - intros H; inversion H; subst. eexists. reflexivity.
Qed.

Lemma create_dashboard_never_raises history :
  ~ raises (create_dashboard history).
Proof.
  unfold create_dashboard.
  destruct (fetch_stock_data history "^GSPC" "2y") as [[printed data]|e] eqn:E.
  - destruct (create_stats_panel_of_fetched _ _ _ _ _ E) as [pane Hp].
    simpl. rewrite Hp. simpl. intros [e He]. discriminate He.
  - exfalso. unfold fetch_stock_data in E.
    destruct (fetch_stock_data_try history "^GSPC" "2y"); discriminate E.
Qed.

(** * Further properties of the code *)

(** ** What [fetch_stock_data] can return *)

(** X1.  Whatever the provider does, [fetch_stock_data] does not raise and
    does not return a frame without rows.  Either the provider returned a
    frame with rows, and the call prints nothing and returns that frame
    with the calculated columns; or the call returns [None] and prints
    exactly one line, which carries the text of the provider's exception
    or, for a frame without rows, "No data found for <symbol>". *)
Theorem fetch_stock_data_outcome history symbol period :
  (exists raw,
      history symbol period = Return raw
      /\ rows raw <> []
      /\ fetch_stock_data history symbol period
         = Return ([], Some (add_calculated_fields raw))
      /\ rows (add_calculated_fields raw) <> [])
  \/ (exists msg,
        fetch_stock_data history symbol period
        = Return (["Error fetching data for " ++ symbol ++ ": " ++ msg]%string,
                  None)
        /\ ((exists e, history symbol period = Raise e /\ msg = str e)
            \/ (exists raw, history symbol period = Return raw
                            /\ rows raw = []
                            /\ msg = ("No data found for " ++ symbol)%string))).
Proof.
  destruct (history symbol period) as [raw|e] eqn:Hh.
  - destruct (rows raw) as [|b bars] eqn:Hr.
    + right. exists ("No data found for " ++ symbol)%string. split.
      * unfold fetch_stock_data, fetch_stock_data_try. rewrite Hh. simpl.
        unfold empty. rewrite Hr. reflexivity.
      * right. exists raw. auto.
    + left. exists raw.
      assert (Hne : rows raw <> []) by (rewrite Hr; discriminate).
      split; [reflexivity|]. split; [exact Hne|].
      split; [apply fetch_stock_data_nonempty; assumption | exact Hne].
  - right. exists (str e). split.
    + unfold fetch_stock_data, fetch_stock_data_try. rewrite Hh. reflexivity.
    + left. exists e. auto.
Qed.

(** Every frame the engine returns is an enriched frame with rows. *)
Lemma fetch_stock_data_some history symbol period printed data :
  fetch_stock_data history symbol period = Return (printed, Some data) ->
  exists raw,
    history symbol period = Return raw
    /\ rows raw <> []
    /\ printed = []
    /\ data = add_calculated_fields raw.
Proof.
  unfold fetch_stock_data, fetch_stock_data_try.
  destruct (history symbol period) as [raw|e]; simpl.
  - unfold empty. destruct (rows raw) as [|b bars] eqn:Hr; simpl;
      intros H; inversion H; subst.
    exists raw. rewrite Hr. repeat split. discriminate.
  - intros H; inversion H.
Qed.

(** X2.  In every frame [fetch_stock_data] returns, the four calculated
    columns are present and each has one entry per row of the frame: the
    columns are aligned with the index. *)
Theorem fetched_columns_aligned history symbol period printed data :
  fetch_stock_data history symbol period = Return (printed, Some data) ->
  (1 <= len data)%nat
  /\ exists returns ema9 ema50 ema200,
       Returns data = Some returns
       /\ EMA_9 data = Some ema9
       /\ EMA_50 data = Some ema50
       /\ EMA_200 data = Some ema200
       /\ length returns = len data
       /\ length ema9 = len data
       /\ length ema50 = len data
       /\ length ema200 = len data.
Proof.
  intros H.
  destruct (fetch_stock_data_some _ _ _ _ _ H) as (raw & _ & Hne & _ & ->).
  split.
  - unfold len. change (rows (add_calculated_fields raw)) with (rows raw).
    destruct (rows raw); [congruence | simpl; lia].
  - exists (Pandas.pct_change (col_Close raw)),
           (Pandas.ewm_mean 9 (col_Close raw)),
           (Pandas.ewm_mean 50 (col_Close raw)),
           (Pandas.ewm_mean 200 (col_Close raw)).
    repeat (split; [reflexivity|]).
    unfold len. change (rows (add_calculated_fields raw)) with (rows raw).
    rewrite pct_change_length, !ewm_mean_length.
    unfold col_Close. rewrite length_map. auto.
Qed.

Lemma fetched_columns_aligned_witness :
  fetch_stock_data (provider_of three_bars) "^GSPC" "2y"
  = Return ([], Some (add_calculated_fields (fetched three_bars)))
  /\ (1 <= len (add_calculated_fields (fetched three_bars)))%nat
  /\ exists returns ema9 ema50 ema200,
       Returns (add_calculated_fields (fetched three_bars)) = Some returns
       /\ EMA_9 (add_calculated_fields (fetched three_bars)) = Some ema9
       /\ EMA_50 (add_calculated_fields (fetched three_bars)) = Some ema50
       /\ EMA_200 (add_calculated_fields (fetched three_bars)) = Some ema200
       /\ length returns = len (add_calculated_fields (fetched three_bars))
       /\ length ema9 = len (add_calculated_fields (fetched three_bars))
       /\ length ema50 = len (add_calculated_fields (fetched three_bars))
       /\ length ema200 = len (add_calculated_fields (fetched three_bars)).
Proof.
  assert (H : fetch_stock_data (provider_of three_bars) "^GSPC" "2y"
              = Return ([], Some (add_calculated_fields (fetched three_bars))))
    by reflexivity.
  exact (conj H
    (fetched_columns_aligned (provider_of three_bars) "^GSPC" "2y" []
       (add_calculated_fields (fetched three_bars)) H)).
Defined.

(** ** The moving averages against the closes *)

(** The guard [if weighted != cur] of the kernel: on an observation equal
    to the average carried so far, the average is left as it is, whatever
    the weights. *)
Lemma ewm_step_rests adjust f new_wt weighted old_wt cur :
  weighted == cur ->
  fst (Pandas.ewm_step adjust f new_wt (weighted, old_wt) cur) = weighted.
Proof.
  intros H. unfold Pandas.ewm_step. cbv beta iota zeta. cbn [fst].
  rewrite (proj2 (Qeq_bool_iff weighted cur) H). reflexivity.
Qed.

Lemma ewm_loop_flat adjust f new_wt c vals : forall weighted old_wt,
  weighted == c ->
  Forall (fun x => x == c) vals ->
  Forall (fun e => e == c)
         (Pandas.ewm_loop adjust f new_wt (weighted, old_wt) vals).
Proof.
  induction vals as [|cur rest IH]; intros weighted old_wt Hw Hall.
  - constructor.
  - inversion Hall as [|x l Hcur Hrest]; subst.
    assert (Hwc : weighted == cur) by (rewrite Hw, Hcur; reflexivity).
    pose proof (ewm_step_rests adjust f new_wt weighted old_wt cur Hwc) as Hs.
    cbn [Pandas.ewm_loop].
    destruct (Pandas.ewm_step adjust f new_wt (weighted, old_wt) cur)
      as [weighted' old_wt'] eqn:E.
    cbn [fst] in *. subst weighted'.
    constructor; [exact Hw|].
    apply IH; assumption.
Qed.

Lemma ewm_mean_flat span c vals :
  Forall (fun x => x == c) vals ->
  Forall (fun e => e == c) (Pandas.ewm_mean span vals).
Proof.
  intros Hall. unfold Pandas.ewm_mean, Pandas.ewm.
  destruct vals as [|v0 rest]; [constructor|].
  inversion Hall as [|x l Hv0 Hrest]; subst.
  constructor; [exact Hv0|].
  apply ewm_loop_flat; assumption.
Qed.

(** X3.  The moving averages of a flat series are the price: if every
    close of a frame the engine returns is the same number [c], then every
    value of the 9-, 50- and 200-bar column is [c].  The kernel's guard
    [if weighted != cur] skips the update on such a series, so no
    arithmetic is done on the way. *)
Theorem flat_closes_flat_averages history symbol period printed data span c :
  fetch_stock_data history symbol period = Return (printed, Some data) ->
  In span [9; 50; 200]%Z ->
  Forall (fun x => x == c) (col_Close data) ->
  exists ema,
    ema_column span data = Some ema
    /\ length ema = len data
    /\ Forall (fun e => e == c) ema.
Proof.
  intros H Hs Hall.
  destruct (fetch_stock_data_some _ _ _ _ _ H) as (raw & _ & Hne & _ & ->).
  exists (Pandas.ewm_mean (inject_Z span) (col_Close raw)).
  split; [apply ema_column_enriched, Hs|]. split.
  - rewrite ewm_mean_length. apply length_map.
  - apply ewm_mean_flat. exact Hall.
Qed.

Lemma flat_closes_flat_averages_witness :
  fetch_stock_data (provider_of ten_flat_bars) "^GSPC" "2y"
  = Return ([], Some (add_calculated_fields (fetched ten_flat_bars)))
  /\ In 50%Z [9; 50; 200]%Z
  /\ Forall (fun x => x == 100)
            (col_Close (add_calculated_fields (fetched ten_flat_bars)))
  /\ exists ema,
       ema_column 50 (add_calculated_fields (fetched ten_flat_bars)) = Some ema
       /\ length ema = len (add_calculated_fields (fetched ten_flat_bars))
       /\ Forall (fun e => e == 100) ema.
Proof.
  assert (H1 : fetch_stock_data (provider_of ten_flat_bars) "^GSPC" "2y"
               = Return ([], Some (add_calculated_fields (fetched ten_flat_bars))))
    by reflexivity.
  assert (H2 : In 50%Z [9; 50; 200]%Z) by (simpl; auto).
  assert (H3 : Forall (fun x => x == 100)
                 (col_Close (add_calculated_fields (fetched ten_flat_bars)))).
  { repeat (constructor; [reflexivity|]). constructor. }
  exact (conj H1 (conj H2 (conj H3
    (flat_closes_flat_averages (provider_of ten_flat_bars) "^GSPC" "2y" []
       (add_calculated_fields (fetched ten_flat_bars)) 50 100 H1 H2 H3)))).
Defined.

Lemma ewm_loop_rests adjust f new_wt vals : forall weighted old_wt j,
  (j < length vals)%nat ->
  nth j (weighted
           :: Pandas.ewm_loop adjust f new_wt (weighted, old_wt) vals) 0
  == nth j vals 0 ->
  nth j (Pandas.ewm_loop adjust f new_wt (weighted, old_wt) vals) 0
  = nth j (weighted
             :: Pandas.ewm_loop adjust f new_wt (weighted, old_wt) vals) 0.
Proof.
  induction vals as [|cur rest IH]; intros weighted old_wt j Hj.
  - simpl in Hj. lia.
  - cbn [Pandas.ewm_loop].
    pose proof (ewm_step_rests adjust f new_wt weighted old_wt cur) as Hs.
    destruct (Pandas.ewm_step adjust f new_wt (weighted, old_wt) cur)
      as [weighted' old_wt'] eqn:E.
    cbn [fst] in *.
    destruct j as [|j'].
    + cbn [nth]. exact Hs.
    + cbn [nth]. simpl in Hj.
      apply (IH weighted' old_wt' j'). lia.
Qed.

(** X4.  A moving average rests where the close meets it: at every bar
    [i >= 1] of a frame the engine returns, if the close of the bar equals
    the value of the 9-, 50- or 200-bar column at bar [i-1], then the
    column has that same value at bar [i]. *)
Theorem ema_rests_at_close history symbol period printed data span i :
  fetch_stock_data history symbol period = Return (printed, Some data) ->
  In span [9; 50; 200]%Z ->
  (1 <= i < len data)%nat ->
  exists ema,
    ema_column span data = Some ema
    /\ (nth (i - 1) ema 0 == nth i (col_Close data) 0 ->
        nth i ema 0 = nth (i - 1) ema 0).
Proof.
  intros H Hs Hi.
  destruct (fetch_stock_data_some _ _ _ _ _ H) as (raw & _ & Hne & _ & ->).
  exists (Pandas.ewm_mean (inject_Z span) (col_Close raw)).
  split; [apply ema_column_enriched, Hs|].
  change (col_Close (add_calculated_fields raw)) with (col_Close raw).
  assert (Hlen : length (col_Close raw) = len (add_calculated_fields raw))
    by apply length_map.
  unfold Pandas.ewm_mean, Pandas.ewm.
  destruct (col_Close raw) as [|v0 rest]; [simpl in Hlen; lia|].
  destruct i as [|j]; [lia|].
  replace (S j - 1)%nat with j by lia.
  change (nth (S j) (v0 :: rest) 0) with (nth j rest 0).
  match goal with
  | |- context [nth (S j) (v0 :: ?out) 0] =>
      change (nth (S j) (v0 :: out) 0) with (nth j out 0)
  end.
  apply ewm_loop_rests. simpl in Hlen. lia.
Qed.

Lemma ema_rests_at_close_witness :
  fetch_stock_data (provider_of ten_flat_bars) "^GSPC" "2y"
  = Return ([], Some (add_calculated_fields (fetched ten_flat_bars)))
  /\ In 9%Z [9; 50; 200]%Z
  /\ (1 <= 4 < len (add_calculated_fields (fetched ten_flat_bars)))%nat
  /\ exists ema,
       ema_column 9 (add_calculated_fields (fetched ten_flat_bars)) = Some ema
       /\ nth (4 - 1) ema 0
          == nth 4 (col_Close (add_calculated_fields (fetched ten_flat_bars))) 0
       /\ nth 4 ema 0 = nth (4 - 1) ema 0.
Proof.
  assert (H1 : fetch_stock_data (provider_of ten_flat_bars) "^GSPC" "2y"
               = Return ([], Some (add_calculated_fields (fetched ten_flat_bars))))
    by reflexivity.
  assert (H2 : In 9%Z [9; 50; 200]%Z) by (simpl; auto).
  assert (H3 : (1 <= 4 < len (add_calculated_fields (fetched ten_flat_bars)))%nat)
    by (vm_compute; lia).
  destruct (ema_rests_at_close (provider_of ten_flat_bars) "^GSPC" "2y" []
              (add_calculated_fields (fetched ten_flat_bars)) 9 4 H1 H2 H3)
    as (ema & Hc & Hrest).
  assert (Hpre : nth (4 - 1) ema 0
                 == nth 4 (col_Close (add_calculated_fields
                                        (fetched ten_flat_bars))) 0).
  { vm_compute in Hc. injection Hc as <-. reflexivity. }
  refine (conj H1 (conj H2 (conj H3 _))).
  exists ema. exact (conj Hc (conj Hpre (Hrest Hpre))).
Defined.

(** ** The returns column and the statistics *)

Lemma changes_after_positive prev rest :
  0 < prev ->
  Forall (fun c => 0 < c) rest ->
  changes_after prev rest = map Some (changes prev rest).
Proof.
  revert prev. induction rest as [|cur rest' IH]; intros prev Hp Hall.
  - reflexivity.
  - inversion Hall as [|c l Hcur Hrest]; subst.
    cbn [changes_after changes map].
    rewrite fdiv_nonzero by (apply Qnot_eq_sym, Qlt_not_eq, Hp).
    rewrite (IH cur Hcur Hrest). reflexivity.
Qed.


Lemma positive_closes_column bars :
  positive_closes bars -> Forall (fun c => 0 < c) (map Close bars).
Proof. intros H. rewrite Forall_map. exact H. Qed.

(** The defined returns of a history with positive closes. *)
Lemma dropna_pct_change_positive v0 rest :
  0 < v0 ->
  Forall (fun c => 0 < c) rest ->
  Pandas.dropna (Pandas.pct_change (v0 :: rest)) = changes v0 rest.
Proof.
  intros Hv Hall. rewrite pct_change_cons. cbn [Pandas.dropna].
  rewrite (changes_after_positive v0 rest Hv Hall).
  apply dropna_map_Some.
Qed.





(** ** What [create_stats_panel] can return *)

Lemma key_metrics_closed_form data returns :
  rows data <> [] ->
  Returns data = Some returns ->
  key_metrics data = Return (metrics_of data returns).
Proof.
  intros Hne Hr.
  exact (key_metrics_run data returns Hne Hr).
Qed.

Lemma key_metrics_missing_returns data :
  rows data <> [] ->
  Returns data = None ->
  key_metrics data = Raise (KeyError "Returns").
Proof.
  intros Hne Hr.
  assert (Hn : (1 <= len data)%nat).
  { unfold len. destruct (rows data); [congruence | simpl; lia]. }
  assert (Hc : length (col_Close data) = len data) by apply length_map.
  unfold key_metrics. rewrite Hr.
  rewrite (iloc_last (col_Close data) 0) by lia.
  rewrite (iloc_first (col_Close data) 0) by lia.
  destruct (1 <? len data)%nat eqn:E.
  - apply Nat.ltb_lt in E.
    rewrite (iloc_last_but_one (col_Close data) 0) by lia.
    reflexivity.
  - reflexivity.
Qed.

(** The three ways [create_stats_panel] ends. *)
Lemma create_stats_panel_cases data :
  (no_data data
   /\ create_stats_panel data = Return (MarkdownText "**No data available**"))
  \/ (exists d, data = Some d /\ rows d <> [] /\ Returns d = None
                /\ create_stats_panel data = Raise (KeyError "Returns"))
  \/ (exists d returns,
        data = Some d /\ rows d <> [] /\ Returns d = Some returns
        /\ create_stats_panel data
           = Return (MarkdownStats (metrics_of d returns))).
Proof.
  destruct data as [d|].
  - destruct (rows d) as [|b bars] eqn:Hr.
    + left. split; [right; exists d; auto|].
      unfold create_stats_panel, empty. rewrite Hr. reflexivity.
    + assert (Hne : rows d <> []) by (rewrite Hr; discriminate).
      right. destruct (Returns d) as [returns|] eqn:Hret.
      * right. exists d, returns. repeat split; try assumption.
        unfold create_stats_panel, empty. rewrite Hr.
        rewrite (key_metrics_closed_form d returns Hne Hret). reflexivity.
      * left. exists d. repeat split; try assumption.
        unfold create_stats_panel, empty. rewrite Hr.
        rewrite (key_metrics_missing_returns d Hne Hret). reflexivity.
  - left. split; [left; reflexivity | reflexivity].
Qed.

(** X6.  [create_stats_panel] raises in one case only: a frame with rows
    and without the returns column, where [data['Returns']] is a
    [KeyError].  On [None] and on a frame without rows it returns the
    placeholder pane even when the column is missing, and on a frame with
    rows and the column it returns the statistics. *)
Theorem create_stats_panel_raises_iff data e :
  create_stats_panel data = Raise e
  <-> e = KeyError "Returns"
      /\ exists d, data = Some d /\ rows d <> [] /\ Returns d = None.
Proof.
  destruct (create_stats_panel_cases data)
    as [[Hn Hs] | [(d & -> & Hne & Hr & Hs) | (d & returns & -> & Hne & Hr & Hs)]];
    rewrite Hs; split.
  - discriminate.
  - intros (_ & d & -> & Hne & _). destruct Hn as [Hn | (d' & Hd & He)].
    + discriminate Hn.
    + injection Hd as <-. contradiction.
  - intros H. injection H as <-. split; [reflexivity|]. exists d. auto.
  - intros (-> & _). reflexivity.
  - discriminate.
  - intros (_ & d' & Hd & _ & Hr'). injection Hd as <-. congruence.
Qed.

(** X7.  The annualised volatility of the statistics pane, when it is a
    number, is not negative. *)
Theorem volatility_nonnegative data m v :
  create_stats_panel data = Return (MarkdownStats m) ->
  volatility m = Some v ->
  (0 <= v)%R.
Proof.
  intros Hs Hv.
  destruct (create_stats_panel_cases data)
    as [[_ Hs'] | [(d & _ & _ & _ & Hs') | (d & returns & _ & _ & _ & Hs')]];
    rewrite Hs' in Hs; try discriminate Hs.
  injection Hs as <-.
  unfold metrics_of in Hv. cbn [volatility] in Hv.
  unfold Pandas.std in Hv.
  destruct (Pandas.var 1 (Pandas.dropna returns)) as [q|]; [|discriminate Hv].
  simpl in Hv. injection Hv as <-.
  unfold annualize_std.
  apply Rmult_le_pos; [apply Rmult_le_pos; apply sqrt_pos|].
  apply Rlt_le, IZR_lt. reflexivity.
Qed.

Lemma volatility_nonnegative_witness :
  exists m v,
    create_stats_panel (Some (add_calculated_fields (fetched three_bars)))
    = Return (MarkdownStats m)
    /\ volatility m = Some v
    /\ (0 <= v)%R.
Proof.
  assert (Hne : rows (fetched three_bars) <> []) by discriminate.
  pose proof (enriched_stats_panel (fetched three_bars) Hne) as Hs.
  cbv zeta in Hs.
  eexists. eexists.
  split; [exact Hs|].
  assert (Hv : forall m v,
             create_stats_panel (Some (add_calculated_fields (fetched three_bars)))
             = Return (MarkdownStats m) ->
             volatility m = Some v -> (0 <= v)%R)
    by (intros m v; apply volatility_nonnegative).
  split; [reflexivity|].
  eapply Hv; [exact Hs | reflexivity].
Defined.

(** ** The statistics against the returns column *)

Lemma last_cons_default (x : Q) rest d : last (x :: rest) d = last rest x.
Proof.
  revert x d. induction rest as [|y rest' IH]; intros x d.
  - reflexivity.
  - change (last (x :: y :: rest') d) with (last (y :: rest') d).
    rewrite (IH y d). symmetry. apply IH.
Qed.

Lemma nth_last_cons (x : Q) rest :
  nth (length rest) (x :: rest) 0 = last rest x.
Proof.
  revert x. induction rest as [|y rest' IH]; intros x.
  - reflexivity.
  - change (nth (length (y :: rest')) (x :: y :: rest') 0)
      with (nth (length rest') (y :: rest') 0).
    rewrite IH. symmetry. apply last_cons_default.
Qed.

Lemma nth_last_close b bars :
  nth (length (b :: bars) - 1) (map Close (b :: bars)) 0
  = last (map Close bars) (Close b).
Proof.
  replace (length (b :: bars) - 1)%nat with (length (map Close bars))
    by (rewrite length_map; simpl; lia).
  change (map Close (b :: bars)) with (Close b :: map Close bars).
  apply nth_last_cons.
Qed.

(** The changes compound to the ratio of the last close to the first. *)
Lemma compound_changes prev rest :
  0 < prev ->
  Forall (fun c => 0 < c) rest ->
  compound (changes prev rest) == last rest prev / prev.
Proof.
  revert prev. induction rest as [|cur rest' IH]; intros prev Hp Hall.
  - simpl. field. apply Qnot_eq_sym, Qlt_not_eq, Hp.
  - inversion Hall as [|c l Hcur Hrest]; subst.
    cbn [changes compound fold_right].
    fold (compound (changes cur rest')).
    rewrite (IH cur Hcur Hrest), last_cons_default.
    field. split; apply Qnot_eq_sym, Qlt_not_eq; assumption.
Qed.

(** X8.  In a frame the engine returns with positive closes, the period
    return of the statistics pane is what the daily returns of the returns
    column compound to: the product of [1 + r] over the defined returns is
    [close[last] / close[0]], and the period return is that product minus
    one, times 100. *)
Theorem period_return_compounds history symbol period printed data :
  fetch_stock_data history symbol period = Return (printed, Some data) ->
  positive_closes (rows data) ->
  exists returns m pr,
    Returns data = Some returns
    /\ create_stats_panel (Some data) = Return (MarkdownStats m)
    /\ period_return m = Some pr
    /\ compound (Pandas.dropna returns)
       == nth (len data - 1) (col_Close data) 0 / nth 0 (col_Close data) 0
    /\ pr == (compound (Pandas.dropna returns) - 1) * 100.
Proof.
  intros H Hp.
  destruct (fetch_stock_data_some _ _ _ _ _ H) as (raw & _ & Hne & _ & ->).
  change (rows (add_calculated_fields raw)) with (rows raw) in Hp.
  pose proof (enriched_stats_panel raw Hne) as Hs. cbv zeta in Hs.
  change (col_Close (add_calculated_fields raw)) with (col_Close raw).
  change (len (add_calculated_fields raw)) with (len raw).
  assert (Hnz : ~ nth 0 (col_Close raw) 0 == 0).
  { apply Qnot_eq_sym, Qlt_not_eq, positive_closes_nth; [exact Hp|].
    destruct (rows raw); [congruence | simpl; lia]. }
  rewrite (fdiv_nonzero _ _ Hnz) in Hs.
  exists (Pandas.pct_change (col_Close raw)). eexists. eexists.
  split; [reflexivity|]. split; [exact Hs|].
  cbn [period_return Pandas.cell_map].
  split; [reflexivity|].
  unfold len, col_Close in *.
  destruct (rows raw) as [|b bars]; [congruence|].
  inversion Hp as [|x l Hb Hbars]; subst.
  pose proof (positive_closes_column bars Hbars) as Hcol.
  rewrite nth_last_close.
  change (map Close (b :: bars)) with (Close b :: map Close bars) in *.
  cbn [nth] in *.
  rewrite (dropna_pct_change_positive (Close b) (map Close bars) Hb Hcol).
  rewrite (compound_changes (Close b) (map Close bars) Hb Hcol).
  split; [reflexivity|].
  field. exact Hnz.
Qed.

Lemma period_return_compounds_witness :
  fetch_stock_data (provider_of three_bars) "^GSPC" "2y"
  = Return ([], Some (add_calculated_fields (fetched three_bars)))
  /\ positive_closes (rows (add_calculated_fields (fetched three_bars)))
  /\ exists returns m pr,
       Returns (add_calculated_fields (fetched three_bars)) = Some returns
       /\ create_stats_panel (Some (add_calculated_fields (fetched three_bars)))
          = Return (MarkdownStats m)
       /\ period_return m = Some pr
       /\ compound (Pandas.dropna returns)
          == nth (len (add_calculated_fields (fetched three_bars)) - 1)
                 (col_Close (add_calculated_fields (fetched three_bars))) 0
             / nth 0 (col_Close (add_calculated_fields (fetched three_bars))) 0
       /\ pr == (compound (Pandas.dropna returns) - 1) * 100.
Proof.
  assert (H1 : fetch_stock_data (provider_of three_bars) "^GSPC" "2y"
               = Return ([], Some (add_calculated_fields (fetched three_bars))))
    by reflexivity.
  assert (H2 : positive_closes (rows (add_calculated_fields (fetched three_bars)))).
  { repeat constructor. }
  exact (conj H1 (conj H2
    (period_return_compounds (provider_of three_bars) "^GSPC" "2y" []
       (add_calculated_fields (fetched three_bars)) H1 H2))).
Defined.

(** X9.  In a frame the engine returns with positive closes and two bars
    or more, the daily change of the statistics pane is the last row of
    the returns column: the percentage is that return times 100, and the
    change in price is that return times the previous close. *)
Theorem daily_change_is_last_return history symbol period printed data :
  fetch_stock_data history symbol period = Return (printed, Some data) ->
  positive_closes (rows data) ->
  (2 <= len data)%nat ->
  exists returns m pct r,
    Returns data = Some returns
    /\ create_stats_panel (Some data) = Return (MarkdownStats m)
    /\ nth_error returns (len data - 1) = Some (Some r)
    /\ daily_change_pct m = Some pct
    /\ pct == r * 100
    /\ daily_change m == r * prev_close m.
Proof.
  intros H Hp Hlen.
  destruct (fetch_stock_data_some _ _ _ _ _ H) as (raw & _ & Hne & _ & ->).
  change (rows (add_calculated_fields raw)) with (rows raw) in Hp.
  change (len (add_calculated_fields raw)) with (len raw) in *.
  pose proof (enriched_stats_panel raw Hne) as Hs. cbv zeta in Hs.
  assert (Hlt : (1 <? len raw)%nat = true) by (apply Nat.ltb_lt; lia).
  rewrite Hlt in Hs.
  assert (Hc : length (col_Close raw) = len raw) by apply length_map.
  assert (Hnz : ~ nth (len raw - 2) (col_Close raw) 0 == 0).
  { apply Qnot_eq_sym, Qlt_not_eq, positive_closes_nth; [exact Hp|].
    unfold len in *. lia. }
  rewrite (fdiv_nonzero _ _ Hnz) in Hs.
  destruct (pct_change_nth_error (col_Close raw) (len raw - 1)) as (r & Hr & Hv).
  - lia.
  - replace (len raw - 1 - 1)%nat with (len raw - 2)%nat by lia. exact Hnz.
  - exists (Pandas.pct_change (col_Close raw)). eexists. eexists. exists r.
    split; [reflexivity|]. split; [exact Hs|].
    split; [exact Hr|].
    cbn [daily_change_pct daily_change prev_close Pandas.cell_map].
    split; [reflexivity|].
    unfold daily_return in Hv.
    replace (len raw - 1 - 1)%nat with (len raw - 2)%nat in Hv by lia.
    rewrite Hv. split; field; exact Hnz.
Qed.

Lemma daily_change_is_last_return_witness :
  fetch_stock_data (provider_of three_bars) "^GSPC" "2y"
  = Return ([], Some (add_calculated_fields (fetched three_bars)))
  /\ positive_closes (rows (add_calculated_fields (fetched three_bars)))
  /\ (2 <= len (add_calculated_fields (fetched three_bars)))%nat
  /\ exists returns m pct r,
       Returns (add_calculated_fields (fetched three_bars)) = Some returns
       /\ create_stats_panel (Some (add_calculated_fields (fetched three_bars)))
          = Return (MarkdownStats m)
       /\ nth_error returns (len (add_calculated_fields (fetched three_bars)) - 1)
          = Some (Some r)
       /\ daily_change_pct m = Some pct
       /\ pct == r * 100
       /\ daily_change m == r * prev_close m.
Proof.
  assert (H1 : fetch_stock_data (provider_of three_bars) "^GSPC" "2y"
               = Return ([], Some (add_calculated_fields (fetched three_bars))))
    by reflexivity.
  assert (H2 : positive_closes (rows (add_calculated_fields (fetched three_bars)))).
  { repeat constructor. }
  assert (H3 : (2 <= len (add_calculated_fields (fetched three_bars)))%nat)
    by (vm_compute; lia).
  exact (conj H1 (conj H2 (conj H3
    (daily_change_is_last_return (provider_of three_bars) "^GSPC" "2y" []
       (add_calculated_fields (fetched three_bars)) H1 H2 H3)))).
Defined.

(** ** What [create_stock_chart] draws *)

Lemma create_stock_chart_no_data data symbol :
  no_data data ->
  create_stock_chart data symbol
  = Plotly.add_annotation Plotly.new_Figure no_data_annotation.
Proof.
  intros [-> | (d & -> & He)]; [reflexivity|].
  unfold create_stock_chart, empty. rewrite He. reflexivity.
Qed.

Lemma empty_false data : rows data <> [] -> empty data = false.
Proof.
  intros Hne. unfold empty. destruct (rows data); [congruence | reflexivity].
Qed.



(** X11.  The chart is the placeholder exactly when there is no data: the
    figure has no trace if and only if [data] is [None] or a frame without
    rows, and it carries an annotation, the "No data available" one, if
    and only if the same holds. *)
Theorem chart_placeholder_iff data symbol :
  (Plotly.data (create_stock_chart data symbol) = [] <-> no_data data)
  /\ (Plotly.annotations (create_stock_chart data symbol) <> [] <-> no_data data)
  /\ (Plotly.annotations (create_stock_chart data symbol) = [no_data_annotation]
      \/ Plotly.annotations (create_stock_chart data symbol) = []).
Proof.
  assert (Hcases : no_data data \/ exists d, data = Some d /\ rows d <> []).
  { destruct data as [d|]; [|left; left; reflexivity].
    destruct (rows d) eqn:E.
    - left. right. exists d. auto.
    - right. exists d. split; [reflexivity | congruence]. }
  destruct Hcases as [Hn | (d & -> & Hne)].
  - rewrite (create_stock_chart_no_data data symbol Hn). cbn.
    split; [tauto|]. split; [|left; reflexivity].
    split; [intros _; exact Hn | discriminate].
  - assert (Hnot : ~ no_data (Some d)).
    { intros [Hx | (d' & Hd & He)]; [discriminate Hx|].
      injection Hd as <-. contradiction. }
    unfold create_stock_chart. rewrite (empty_false d Hne).
    unfold add_ema_trace.
    destruct (EMA_9 d) as [e9|], (EMA_50 d) as [e50|], (EMA_200 d) as [e200|];
      cbn; (split; [split; [discriminate | contradiction]|]);
      (split; [split; [congruence | contradiction] | right; reflexivity]).
Qed.

(** X12.  For every frame the engine returns, the chart has the four
    traces, closing price and the three averages, and each of them has one
    value per index entry: the series that are plotted against the dates
    are as long as the dates. *)
Theorem fetched_chart_aligned history symbol period printed data label :
  fetch_stock_data history symbol period = Return (printed, Some data) ->
  let fig := create_stock_chart (Some data) label in
  map Plotly.name (Plotly.data fig)
  = [(label ++ " Close")%string; "EMA 9"%string; "EMA 50"%string;
     "EMA 200"%string]
  /\ Forall (fun t => Plotly.x t = index data
                      /\ length (Plotly.y t) = length (Plotly.x t))
            (Plotly.data fig).
Proof.
  intros H.
  destruct (fetch_stock_data_some _ _ _ _ _ H) as (raw & _ & Hne & _ & ->).
  cbv zeta. unfold create_stock_chart.
  assert (Hne' : rows (add_calculated_fields raw) <> []) by exact Hne.
  rewrite (empty_false _ Hne').
  split; [reflexivity|].
  assert (Hi : length (index raw) = length (rows raw)) by apply length_map.
  assert (Hc : length (col_Close raw) = length (rows raw)) by apply length_map.
  assert (He : forall span,
             length (Pandas.ewm_mean span (col_Close raw)) = length (index raw)).
  { intros span. rewrite ewm_mean_length. congruence. }
  unfold add_ema_trace, Plotly.update_layout, Plotly.add_trace.
  cbn [EMA_9 EMA_50 EMA_200 add_calculated_fields set_EMA_9 set_EMA_50
       set_EMA_200 set_Returns Plotly.data Plotly.new_Figure app].
  change (index (add_calculated_fields raw)) with (index raw).
  change (col_Close (add_calculated_fields raw)) with (col_Close raw).
  repeat (constructor; [cbn [Plotly.x Plotly.y]; split;
                        [reflexivity | solve [apply He | congruence]]|]).
  constructor.
Qed.

Lemma fetched_chart_aligned_witness :
  fetch_stock_data (provider_of three_bars) "^GSPC" "2y"
  = Return ([], Some (add_calculated_fields (fetched three_bars)))
  /\ map Plotly.name
         (Plotly.data
            (create_stock_chart (Some (add_calculated_fields (fetched three_bars)))
               "^GSPC"))
     = [("^GSPC" ++ " Close")%string; "EMA 9"%string; "EMA 50"%string;
        "EMA 200"%string]
  /\ Forall (fun t => Plotly.x t = index (add_calculated_fields (fetched three_bars))
                      /\ length (Plotly.y t) = length (Plotly.x t))
            (Plotly.data
               (create_stock_chart
                  (Some (add_calculated_fields (fetched three_bars))) "^GSPC")).
Proof.
  assert (H1 : fetch_stock_data (provider_of three_bars) "^GSPC" "2y"
               = Return ([], Some (add_calculated_fields (fetched three_bars))))
    by reflexivity.
  exact (conj H1
    (fetched_chart_aligned (provider_of three_bars) "^GSPC" "2y" []
       (add_calculated_fields (fetched three_bars)) "^GSPC" H1)).
Defined.

(** ** The dashboard *)

(** X13.  Whatever the provider does, [create_dashboard] does not raise,
    and its two panes agree: either the provider returned a frame with
    rows, nothing is printed, the chart has the four traces and the
    sidebar has the statistics of that frame; or one error line is printed
    and both panes are the "No data available" placeholders.  There is no
    mix of the two. *)
Theorem create_dashboard_outcome
        (history : string -> string -> result DataFrame) :
  (exists raw m,
      history "^GSPC"%string "2y"%string = Return raw
      /\ rows raw <> []
      /\ key_metrics (add_calculated_fields raw) = Return m
      /\ create_dashboard history
         = Return ([], (create_stock_chart (Some (add_calculated_fields raw))
                          "^GSPC"%string,
                        MarkdownStats m))
      /\ length (Plotly.data (create_stock_chart
                                (Some (add_calculated_fields raw)) "^GSPC"%string))
         = 4%nat)
  \/ (exists line,
        (raises (history "^GSPC"%string "2y"%string)
         \/ exists raw, history "^GSPC"%string "2y"%string = Return raw /\ rows raw = [])
        /\ create_dashboard history
           = Return ([line],
                     (Plotly.add_annotation Plotly.new_Figure no_data_annotation,
                      MarkdownText "**No data available**"))).
Proof.
  unfold create_dashboard, fetch_stock_data, fetch_stock_data_try.
  destruct (history "^GSPC"%string "2y"%string) as [raw|e] eqn:Hh.
  - destruct (rows raw) as [|b bars] eqn:Hr.
    + right. eexists. split; [right; exists raw; auto|].
      cbn. unfold empty. rewrite Hr. reflexivity.
    + left. assert (Hne : rows raw <> []) by (rewrite Hr; discriminate).
      assert (Hne' : rows (add_calculated_fields raw) <> []) by exact Hne.
      pose proof (key_metrics_closed_form (add_calculated_fields raw)
                    (Pandas.pct_change (col_Close raw)) Hne' eq_refl) as Hk.
      exists raw. eexists.
      split; [reflexivity|]. split; [exact Hne|]. split; [exact Hk|].
      split.
      * cbn. rewrite (empty_false raw Hne). cbn.
        unfold create_stats_panel.
        rewrite (empty_false _ Hne'), Hk. reflexivity.
      * unfold create_stock_chart. rewrite (empty_false _ Hne'). reflexivity.
  - right. eexists. split; [left; exists e; reflexivity|]. reflexivity.
Qed.

(** ** What the builders read *)

Lemma len_index data : len data = length (index data).
Proof. unfold len, index. symmetry. apply length_map. Qed.

Lemma rows_nil_index data : rows data = [] <-> index data = [].
Proof.
  unfold index. destruct (rows data); simpl; split; congruence.
Qed.

(** X15.  [create_stats_panel] reads the index, the close and volume
    columns and the returns column, and nothing else: two frames that
    agree on these give the same pane (or the same exception), whatever
    their open, high and low prices and their moving-average columns. *)
Theorem create_stats_panel_reads data data' :
  index data = index data' ->
  col_Close data = col_Close data' ->
  col_Volume data = col_Volume data' ->
  Returns data = Returns data' ->
  create_stats_panel (Some data) = create_stats_panel (Some data').
Proof.
  intros Hi Hc Hv Hr.
  assert (Hlen : len data = len data') by (rewrite !len_index, Hi; reflexivity).
  assert (Hm : forall returns, metrics_of data returns = metrics_of data' returns).
  { intros returns. unfold metrics_of. rewrite Hlen, Hi, Hc, Hv. reflexivity. }
  assert (Hempty : rows data = [] <-> rows data' = []).
  { rewrite !rows_nil_index, Hi. tauto. }
  destruct (create_stats_panel_cases (Some data))
    as [[Hn Hs] | [(d & Hd & Hne & Hret & Hs) | (d & returns & Hd & Hne & Hret & Hs)]].
  - rewrite Hs. destruct Hn as [Hn | (d & Hd & He)]; [discriminate Hn|].
    injection Hd as <-.
    unfold create_stats_panel, empty. rewrite (proj1 Hempty He). reflexivity.
  - injection Hd as <-. rewrite Hs.
    assert (Hne' : rows data' <> []) by tauto.
    unfold create_stats_panel. rewrite (empty_false data' Hne').
    rewrite (key_metrics_missing_returns data' Hne') by congruence.
    reflexivity.
  - injection Hd as <-. rewrite Hs.
    assert (Hne' : rows data' <> []) by tauto.
    unfold create_stats_panel. rewrite (empty_false data' Hne').
    rewrite (key_metrics_closed_form data' returns Hne') by congruence.
    rewrite Hm. reflexivity.
Qed.

Lemma create_stats_panel_reads_witness :
  index (add_calculated_fields (fetched three_bars))
  = index (set_Returns (fetched three_bars) (Pandas.pct_change [100; 110; 121]))
  /\ col_Close (add_calculated_fields (fetched three_bars))
     = col_Close (set_Returns (fetched three_bars)
                    (Pandas.pct_change [100; 110; 121]))
  /\ col_Volume (add_calculated_fields (fetched three_bars))
     = col_Volume (set_Returns (fetched three_bars)
                     (Pandas.pct_change [100; 110; 121]))
  /\ Returns (add_calculated_fields (fetched three_bars))
     = Returns (set_Returns (fetched three_bars)
                  (Pandas.pct_change [100; 110; 121]))
  /\ create_stats_panel (Some (add_calculated_fields (fetched three_bars)))
     = create_stats_panel
         (Some (set_Returns (fetched three_bars)
                  (Pandas.pct_change [100; 110; 121]))).
Proof.
  assert (H1 : index (add_calculated_fields (fetched three_bars))
               = index (set_Returns (fetched three_bars)
                          (Pandas.pct_change [100; 110; 121])))
    by reflexivity.
  assert (H2 : col_Close (add_calculated_fields (fetched three_bars))
               = col_Close (set_Returns (fetched three_bars)
                              (Pandas.pct_change [100; 110; 121])))
    by reflexivity.
  assert (H3 : col_Volume (add_calculated_fields (fetched three_bars))
               = col_Volume (set_Returns (fetched three_bars)
                               (Pandas.pct_change [100; 110; 121])))
    by reflexivity.
  assert (H4 : Returns (add_calculated_fields (fetched three_bars))
               = Returns (set_Returns (fetched three_bars)
                            (Pandas.pct_change [100; 110; 121])))
    by reflexivity.
  exact (conj H1 (conj H2 (conj H3 (conj H4
    (create_stats_panel_reads _ _ H1 H2 H3 H4))))).
Defined.

(** X16.  [create_stock_chart] reads the index, the close column and the
    three moving-average columns, and nothing else: two frames that agree
    on these give the same figure, whatever their returns column, their
    volumes and their open, high and low prices. *)
Theorem create_stock_chart_reads data data' symbol :
  index data = index data' ->
  col_Close data = col_Close data' ->
  EMA_9 data = EMA_9 data' ->
  EMA_50 data = EMA_50 data' ->
  EMA_200 data = EMA_200 data' ->
  create_stock_chart (Some data) symbol = create_stock_chart (Some data') symbol.
Proof.
  intros Hi Hc H9 H50 H200.
  assert (Hempty : empty data = empty data').
  { unfold empty. pose proof (rows_nil_index data) as H1.
    pose proof (rows_nil_index data') as H2. rewrite Hi in H1.
    destruct (rows data), (rows data'); try reflexivity.
    - exfalso. assert (E : b :: l = []) by tauto. discriminate E.
    - exfalso. assert (E : b :: l = []) by tauto. discriminate E. }
  unfold create_stock_chart, add_ema_trace.
  rewrite Hempty, Hi, Hc, H9, H50, H200. reflexivity.
Qed.

Lemma create_stock_chart_reads_witness :
  index (add_calculated_fields (fetched three_bars))
  = index (set_Returns (add_calculated_fields (fetched three_bars)) [])
  /\ col_Close (add_calculated_fields (fetched three_bars))
     = col_Close (set_Returns (add_calculated_fields (fetched three_bars)) [])
  /\ EMA_9 (add_calculated_fields (fetched three_bars))
     = EMA_9 (set_Returns (add_calculated_fields (fetched three_bars)) [])
  /\ EMA_50 (add_calculated_fields (fetched three_bars))
     = EMA_50 (set_Returns (add_calculated_fields (fetched three_bars)) [])
  /\ EMA_200 (add_calculated_fields (fetched three_bars))
     = EMA_200 (set_Returns (add_calculated_fields (fetched three_bars)) [])
  /\ create_stock_chart (Some (add_calculated_fields (fetched three_bars))) "^GSPC"
     = create_stock_chart
         (Some (set_Returns (add_calculated_fields (fetched three_bars)) []))
         "^GSPC".
Proof.
  exact (conj eq_refl (conj eq_refl (conj eq_refl (conj eq_refl (conj eq_refl
    (create_stock_chart_reads (add_calculated_fields (fetched three_bars))
       (set_Returns (add_calculated_fields (fetched three_bars)) [])
       "^GSPC" eq_refl eq_refl eq_refl eq_refl eq_refl)))))).
Defined.

(** ** Volumes and dates in the statistics *)







Lemma nth_pred_length_last {A : Type} (l : list A) (d : A) :
  nth (length l - 1) l d = last l d.
Proof.
  induction l as [|x [|y rest] IH].
  - reflexivity.
  - reflexivity.
  - change (nth (length (x :: y :: rest) - 1) (x :: y :: rest) d)
      with (nth (length rest) (y :: rest) d).
    change (last (x :: y :: rest) d) with (last (y :: rest) d).
    rewrite <- IH. simpl. rewrite Nat.sub_0_r. reflexivity.
Qed.

Lemma sorted_below_last (l : list Z) (d : Z) :
  StronglySorted Z.le l -> Forall (fun t => (t <= last l d)%Z) l.
Proof.
  induction 1 as [|x rest Hs IH Hx].
  - constructor.
  - destruct rest as [|y rest'].
    + constructor; [simpl; lia | constructor].
    + change (last (x :: y :: rest') d) with (last (y :: rest') d).
      constructor; [|exact IH].
      inversion IH as [|y' l' Hy _]; subst.
      inversion Hx as [|y' l' Hxy _]; subst. lia.
Qed.

(** X18.  The date range of the statistics pane runs from the first index
    entry to the last; when the dates of the frame ascend, every bar of
    the frame falls inside the range. *)
Theorem date_range_covers data m :
  create_stats_panel (Some data) = Return (MarkdownStats m) ->
  Sorted Z.le (index data) ->
  nth_error (index data) 0 = Some (range_first m)
  /\ range_last m = last (index data) 0%Z
  /\ Forall (fun t => (range_first m <= t <= range_last m)%Z) (index data).
Proof.
  intros Hs Hsorted.
  destruct (create_stats_panel_cases (Some data))
    as [[_ Hs'] | [(d & _ & _ & _ & Hs') | (d & returns & Hd & Hne & _ & Hs')]];
    rewrite Hs' in Hs; try discriminate Hs.
  injection Hd as <-. injection Hs as <-.
  unfold metrics_of. cbn [range_first range_last].
  rewrite len_index, nth_pred_length_last.
  apply Sorted_StronglySorted in Hsorted; [|intros x y z; apply Z.le_trans].
  pose proof (sorted_below_last (index data) 0%Z Hsorted) as Hlast.
  assert (Hidx : index data <> []).
  { intros E. apply Hne. apply rows_nil_index, E. }
  destruct (index data) as [|t0 rest] eqn:E; [congruence|].
  cbn [nth nth_error].
  split; [reflexivity|]. split; [reflexivity|].
  apply StronglySorted_inv in Hsorted. destruct Hsorted as [_ Hfirst].
  constructor.
  - inversion Hlast; subst. lia.
  - inversion Hlast as [|t l Ht Hrest]; subst.
    rewrite Forall_forall in *. intros t Ht'. split; auto.
Qed.

Lemma date_range_covers_witness :
  exists m,
    create_stats_panel (Some (add_calculated_fields (fetched three_bars)))
    = Return (MarkdownStats m)
    /\ Sorted Z.le (index (add_calculated_fields (fetched three_bars)))
    /\ nth_error (index (add_calculated_fields (fetched three_bars))) 0
       = Some (range_first m)
    /\ range_last m
       = last (index (add_calculated_fields (fetched three_bars))) 0%Z
    /\ Forall (fun t => (range_first m <= t <= range_last m)%Z)
              (index (add_calculated_fields (fetched three_bars))).
Proof.
  assert (Hne : rows (fetched three_bars) <> []) by discriminate.
  pose proof (enriched_stats_panel (fetched three_bars) Hne) as Hs.
  cbv zeta in Hs.
  assert (Hsorted : Sorted Z.le (index (add_calculated_fields (fetched three_bars)))).
  { cbn. repeat constructor; lia. }
  eexists. split; [exact Hs|]. split; [exact Hsorted|].
  exact (date_range_covers _ _ Hs Hsorted).
Defined.

(** ** The component test *)

Lemma provider_cases history symbol period :
  provider_delivers history symbol period
  \/ provider_failed history symbol period.
Proof.
  unfold provider_delivers, provider_failed, raises.
  destruct (history symbol period) as [raw|e].
  - destruct (rows raw) eqn:E.
    + right. right. exists raw. auto.
    + left. exists raw. split; [reflexivity | congruence].
  - right. left. exists e. reflexivity.
Qed.

Lemma provider_not_both history symbol period :
  provider_delivers history symbol period ->
  provider_failed history symbol period ->
  False.
Proof.
  intros (raw & Hh & Hne) [[e He] | (raw' & Hh' & He)].
  - congruence.
  - rewrite Hh in Hh'. injection Hh' as <-. contradiction.
Qed.

(** A call of [fetch_stock_data] as a run. *)
Lemma io_fetch_stock_data_cases history symbol period :
  (exists raw,
      history symbol period = Return raw
      /\ rows raw <> []
      /\ io_fetch_stock_data history symbol period
         = ([], Done (Some (add_calculated_fields raw))))
  \/ (exists msg,
        provider_failed history symbol period
        /\ io_fetch_stock_data history symbol period
           = ([fetch_error_line symbol msg], Done None)).
Proof.
  unfold io_fetch_stock_data, fetch_stock_data, fetch_stock_data_try,
    provider_failed, raises.
  destruct (history symbol period) as [raw|e].
  - destruct (rows raw) as [|b bars] eqn:Hr.
    + right. exists ("No data found for " ++ symbol)%string.
      split; [right; exists raw; auto|].
      cbn. unfold empty. rewrite Hr. reflexivity.
    + left. exists raw. split; [reflexivity|].
      split; [congruence|].
      cbn. unfold empty. rewrite Hr. reflexivity.
  - right. exists (str e). split; [left; exists e; reflexivity | reflexivity].
Qed.

(** The two ways the component test goes. *)
Lemma run_tests_cases history first_line :
  (exists raw,
      history "^GSPC"%string "1y"%string = Return raw
      /\ rows raw <> []
      /\ run_tests history first_line
         = ([Printed (Text first_line);
             Printed (Text (msg_fetched ++ str_nat (len raw) ++ msg_days));
             Printed (LatestClose (nth (len raw - 1) (col_Close raw) 0));
             Printed (Text msg_chart_created);
             Printed (Text msg_ready)],
            Done true))
  \/ (exists msg,
        provider_failed history "^GSPC" "1y"
        /\ run_tests history first_line
           = ([Printed (Text first_line);
               fetch_error_line "^GSPC" msg;
               Printed (Text msg_fetch_failed)],
              Done false)).
Proof.
  unfold run_tests.
  destruct (io_fetch_stock_data_cases history "^GSPC" "1y")
    as [(raw & Hh & Hne & Hf) | (msg & Hfail & Hf)]; rewrite Hf.
  - left. exists raw. split; [exact Hh|]. split; [exact Hne|].
    assert (Hl : (1 <= length (col_Close (add_calculated_fields raw)))%nat).
    { change (col_Close (add_calculated_fields raw)) with (col_Close raw).
      unfold col_Close. rewrite length_map.
      destruct (rows raw); [congruence | simpl; lia]. }
    cbn [io_bind print app].
    rewrite (iloc_last (col_Close (add_calculated_fields raw)) 0 Hl).
    change (col_Close (add_calculated_fields raw)) with (col_Close raw).
    change (len (add_calculated_fields raw)) with (len raw).
    unfold col_Close at 1. rewrite length_map. fold (len raw).
    reflexivity.
  - right. exists msg. split; [exact Hfail | reflexivity].
Qed.

Lemma run_tests_behave history first_line :
  In first_line [msg_testing; msg_testing_local] ->
  tests_behave history (run_tests history first_line).
Proof.
  intros Hfirst. unfold tests_behave, events, ends.
  destruct (run_tests_cases history first_line)
    as [(raw & Hh & Hne & Hrun) | (msg & Hfail & Hrun)]; rewrite Hrun;
    cbn [fst snd serve_calls fetch_error_line].
  - assert (Hd : provider_delivers history "^GSPC" "1y") by (exists raw; auto).
    split; [left; reflexivity|].
    split; [split; auto|].
    split; [split; [discriminate | intros Hf; destruct (provider_not_both _ _ _ Hd Hf)]|].
    split; [reflexivity|].
    intros [H | [H | [H | [H | [H | []]]]]]; try discriminate H.
    destruct Hfirst as [<- | [<- | []]]; discriminate H.
  - split; [right; reflexivity|].
    split; [split; [discriminate | intros Hd; destruct (provider_not_both _ _ _ Hd Hfail)]|].
    split; [split; auto|].
    split; [reflexivity|].
    intros [H | [H | [H | []]]]; try discriminate H.
    destruct Hfirst as [<- | [<- | []]]; discriminate H.
Qed.

(** X19.  The component test, [test_components] in [stonkulator.py] and
    [test_local] in [main.py], never raises and never exits: it returns
    [True] exactly when the provider delivers the one-year history of
    "^GSPC" with at least one row, and [False] exactly when the provider
    raises or returns no row.  It does not call [pn.serve], and its
    "Chart creation failed" line is never printed: the chart builder
    always returns a figure. *)
Theorem component_tests_behave history :
  tests_behave history (test_components history)
  /\ tests_behave history (test_local history).
Proof.
  split.
  - unfold test_components. apply run_tests_behave. simpl. auto.
  - unfold test_local. apply run_tests_behave. simpl. auto.
Qed.

(** ** Serving the dashboard: [stonkulator.py] *)

Lemma io_bind_done {A B : Type} out (a : A) (k : A -> IO B) :
  io_bind (out, Done a) k = (out ++ events (k a), ends (k a)).
Proof. unfold io_bind, events, ends. destruct (k a). reflexivity. Qed.

Lemma serve_calls_app out out' :
  serve_calls (out ++ out') = serve_calls out ++ serve_calls out'.
Proof.
  induction out as [|[l|args] rest IH]; simpl.
  - reflexivity.
  - exact IH.
  - rewrite IH. reflexivity.
Qed.

Lemma serve_calls_printed (lines : list string) :
  serve_calls (map (fun text => Printed (Text text)) lines) = [].
Proof.
  induction lines as [|l rest IH]; simpl; [reflexivity | exact IH].
Qed.

Lemma create_dashboard_returns history :
  exists printed chart stats,
    create_dashboard history = Return (printed, (chart, stats)).
Proof.
  pose proof (create_dashboard_never_raises history) as Hn.
  destruct (create_dashboard history) as [[printed [chart stats]]|e].
  - exists printed, chart, stats. reflexivity.
  - exfalso. apply Hn. exists e. reflexivity.
Qed.

Lemma create_dashboard_no_data history :
  provider_failed history "^GSPC" "2y" ->
  exists line,
    create_dashboard history
    = Return ([line],
              (Plotly.add_annotation Plotly.new_Figure no_data_annotation,
               MarkdownText "**No data available**")).
Proof.
  unfold provider_failed, raises, create_dashboard, fetch_stock_data,
    fetch_stock_data_try.
  intros [[e He] | (raw & Hh & Hr)].
  - rewrite He. eexists. reflexivity.
  - rewrite Hh. cbn. unfold empty. rewrite Hr. eexists. reflexivity.
Qed.

(** [run_stonkulator], event by event. *)
Lemma run_stonkulator_cases history (Server : Type)
      (serve : Panel.ServeArgs -> result Server) :
  exists printed chart stats,
    create_dashboard history = Return (printed, (chart, stats))
    /\ run_stonkulator history Server serve
       = (Printed (Text msg_starting)
            :: map (fun text => Printed (Text text)) printed
            ++ Served (stonkulator_serve_args (dashboard_template chart stats))
            :: match serve (stonkulator_serve_args (dashboard_template chart stats))
               with
               | Return _ =>
                   [Printed (Text msg_available); Printed (Text msg_running);
                    Printed (Text msg_access); Printed (Text msg_press)]
               | Raise e => [Printed (Text (msg_error_starting ++ str e))]
               end,
          Done tt).
Proof.
  destruct (create_dashboard_returns history) as (printed & chart & stats & Hc).
  exists printed, chart, stats. split; [exact Hc|].
  unfold run_stonkulator, serve_dashboard, io_create_dashboard, pn_serve,
    stonkulator_serve_args.
  rewrite Hc. unfold of_result, print, io_ret.
  cbn [io_bind fst snd].
  destruct (serve _) as [server|e]; cbn [io_bind io_try_except fst snd];
    cbn [app]; rewrite <- app_assoc; reflexivity.
Qed.

(** X20.  [run_stonkulator] calls [pn.serve] exactly once, on port 5007
    with [show=True] and the origin "localhost:5007", and never raises:
    if [pn.serve] returns, the "available" line and the three lines that
    announce the running dashboard are printed; if [pn.serve] raises, the
    exception is caught, one line "Error starting dashboard: <e>" is
    printed instead, and the run ends normally. *)
Theorem run_stonkulator_guards_serve history (Server : Type)
        (serve : Panel.ServeArgs -> result Server) :
  exists dashboard,
    ends (run_stonkulator history Server serve) = Done tt
    /\ serve_calls (events (run_stonkulator history Server serve))
       = [stonkulator_serve_args dashboard]
    /\ Panel.port (stonkulator_serve_args dashboard) = 5007%Z
    /\ match serve (stonkulator_serve_args dashboard) with
       | Return _ =>
           In (Printed (Text msg_running))
              (events (run_stonkulator history Server serve))
           /\ forall e, ~ In (Printed (Text (msg_error_starting ++ str e)))
                             (events (run_stonkulator history Server serve))
       | Raise e =>
           last (events (run_stonkulator history Server serve))
                (Printed (Text msg_starting))
           = Printed (Text (msg_error_starting ++ str e))
           /\ ~ In (Printed (Text msg_running))
                   (events (run_stonkulator history Server serve))
       end.
Proof.
  destruct (run_stonkulator_cases history Server serve)
    as (printed & chart & stats & Hc & Hrun).
  exists (dashboard_template chart stats).
  rewrite Hrun. unfold events, ends. cbn [fst snd].
  split; [reflexivity|].
  split.
  { cbn [serve_calls]. rewrite serve_calls_app, serve_calls_printed.
    destruct (serve _); reflexivity. }
  split; [reflexivity|].
  assert (Hprinted : forall text,
            In (Printed (Text text))
               (map (fun t => Printed (Text t)) printed) ->
            In text printed).
  { intros text Hin. apply in_map_iff in Hin.
    destruct Hin as (t & Ht & Hin). injection Ht as <-. exact Hin. }
  assert (Hlines : forall line, In line printed ->
            exists msg, line = ("Error fetching data for ^GSPC: " ++ msg)%string).
  { intros line Hin. unfold create_dashboard in Hc.
    destruct (fetch_stock_data history "^GSPC" "2y") as [[ls data]|e] eqn:Hf;
      [|discriminate Hc].
    cbn in Hc. destruct (create_stats_panel data); [|discriminate Hc].
    cbn in Hc. injection Hc as <- _ _.
    unfold fetch_stock_data in Hf.
    destruct (fetch_stock_data_try history "^GSPC" "2y"); cbn in Hf;
      injection Hf as <- _.
    - destruct Hin.
    - destruct Hin as [<- | []]. eexists. reflexivity. }
  destruct (serve _) as [server|e].
  - split.
    + right. apply in_or_app. right. right. right. left. reflexivity.
    + intros e [H | H]; [discriminate H|].
      apply in_app_or in H. destruct H as [H | H].
      * apply Hprinted in H. destruct (Hlines _ H) as [msg Hm].
        discriminate Hm.
      * destruct H as [H | [H | [H | [H | [H | []]]]]]; discriminate H.
  - split.
    + assert (E : Printed (Text msg_starting)
                    :: map (fun text => Printed (Text text)) printed
                    ++ Served (stonkulator_serve_args
                                 (dashboard_template chart stats))
                    :: [Printed (Text (msg_error_starting ++ str e))]
                  = (Printed (Text msg_starting)
                       :: map (fun text => Printed (Text text)) printed
                       ++ [Served (stonkulator_serve_args
                                     (dashboard_template chart stats))])
                      ++ [Printed (Text (msg_error_starting ++ str e))]).
      { cbn [app]. rewrite <- app_assoc. reflexivity. }
      rewrite E. apply last_last.
    + intros [H | H]; [discriminate H|].
      apply in_app_or in H. destruct H as [H | H].
      * apply Hprinted in H. destruct (Hlines _ H) as [msg Hm].
        discriminate Hm.
      * destruct H as [H | [H | []]]; [discriminate H|].
        injection H as H. revert H. unfold msg_error_starting, msg_running.
        cbn. discriminate.
Qed.

(** X21.  The [__main__] block of [stonkulator.py] never raises, and it
    starts the server only after the component test has passed: if the
    provider fails on the one-year history, [pn.serve] is not called and
    [run_stonkulator] is not entered; if it delivers, [pn.serve] is called
    exactly once, on port 5007.  The dashboard itself fetches two years:
    if only that second request fails, the server still starts, with the
    two "No data available" placeholders. *)
Theorem main_stonkulator_outcome history (Server : Type)
        (serve : Panel.ServeArgs -> result Server) :
  ends (main_stonkulator history Server serve) = Done tt
  /\ (provider_failed history "^GSPC" "1y" ->
      serve_calls (events (main_stonkulator history Server serve)) = []
      /\ ~ In (Printed (Text msg_starting))
              (events (main_stonkulator history Server serve)))
  /\ (provider_delivers history "^GSPC" "1y" ->
      exists dashboard,
        serve_calls (events (main_stonkulator history Server serve))
        = [stonkulator_serve_args dashboard]
        /\ (provider_failed history "^GSPC" "2y" ->
            dashboard
            = dashboard_template
                (Plotly.add_annotation Plotly.new_Figure no_data_annotation)
                (MarkdownText "**No data available**"))).
Proof.
  unfold main_stonkulator, test_components.
  destruct (run_stonkulator_cases history Server serve)
    as (printed & chart & stats & Hc & Hrun).
  destruct (run_tests_cases history msg_testing)
    as [(raw & Hh & Hne & Htest) | (msg & Hfail & Htest)];
    rewrite Htest, io_bind_done.
  - assert (Hd : provider_delivers history "^GSPC" "1y") by (exists raw; auto).
    rewrite Hrun. unfold events, ends. cbn [fst snd].
    split; [reflexivity|]. split.
    + intros Hf. destruct (provider_not_both _ _ _ Hd Hf).
    + intros _. exists (dashboard_template chart stats). split.
      * rewrite serve_calls_app. cbn [serve_calls app].
        rewrite serve_calls_app, serve_calls_printed.
        destruct (serve _); reflexivity.
      * intros Hf2. destruct (create_dashboard_no_data history Hf2) as [l Hl].
        rewrite Hl in Hc. injection Hc as _ <- <-. reflexivity.
  - unfold events, ends, io_ret. cbn [fst snd app fetch_error_line].
    split; [reflexivity|]. split.
    + intros _. split; [reflexivity|].
      intros [H | [H | [H | []]]]; discriminate H.
    + intros Hd. destruct (provider_not_both _ _ _ Hd Hfail).
Qed.

Lemma main_stonkulator_outcome_witness :
  provider_failed (provider_of []) "^GSPC" "1y"
  /\ provider_delivers (provider_of three_bars) "^GSPC" "1y"
  /\ serve_calls (events (main_stonkulator (provider_of []) unit
                            (fun _ => Return tt))) = []
  /\ exists dashboard,
       serve_calls (events (main_stonkulator (provider_of three_bars) unit
                              (fun _ => Return tt)))
       = [stonkulator_serve_args dashboard].
Proof.
  assert (H1 : provider_failed (provider_of []) "^GSPC" "1y").
  { right. exists (fetched []). split; reflexivity. }
  assert (H2 : provider_delivers (provider_of three_bars) "^GSPC" "1y").
  { exists (fetched three_bars). split; [reflexivity | discriminate]. }
  destruct (main_stonkulator_outcome (provider_of []) unit (fun _ => Return tt))
    as (_ & Hfail & _).
  destruct (main_stonkulator_outcome (provider_of three_bars) unit
              (fun _ => Return tt)) as (_ & _ & Hok).
  destruct (Hok H2) as (dashboard & Hd & _).
  refine (conj H1 (conj H2 (conj (proj1 (Hfail H1)) _))).
  exists dashboard. exact Hd.
Defined.

(** ** Serving the dashboard: [main.py] *)

(** [create_dashboard_app] prints at most the error line of the engine and
    always returns a template. *)
Lemma create_dashboard_app_returns history :
  exists out dashboard,
    create_dashboard_app history = (out, Done dashboard)
    /\ serve_calls out = [].
Proof.
  unfold create_dashboard_app.
  destruct (io_fetch_stock_data_cases history "^GSPC" "2y")
    as [(raw & Hh & Hne & Hf) | (msg & Hfail & Hf)]; rewrite Hf.
  - pose proof (enriched_stats_panel raw Hne) as Hs. cbv zeta in Hs.
    rewrite io_bind_done, Hs. unfold of_result, io_ret.
    cbn [io_bind events ends fst snd app].
    eexists. eexists. split; reflexivity.
  - rewrite io_bind_done. unfold of_result, io_ret.
    cbn [create_stats_panel io_bind events ends fst snd app].
    eexists. eexists. split; reflexivity.
Qed.

(** X22.  Without data, [main.py] does not serve: if the provider fails
    on the one-year history, [pn.serve] is not called and "Component tests
    failed!" is printed.  When the environment variable PORT is set (to a
    string that is not empty) the program leaves through [exit(1)];
    otherwise [serve_locally] just returns. *)
Theorem main_app_without_data history (Server : Type)
        (serve : Panel.ServeArgs -> result Server) environ_PORT int_of_str :
  provider_failed history "^GSPC" "1y" ->
  serve_calls (events (main_app history Server serve environ_PORT int_of_str))
  = []
  /\ In (Printed (Text msg_tests_failed))
        (events (main_app history Server serve environ_PORT int_of_str))
  /\ ends (main_app history Server serve environ_PORT int_of_str)
     = if port_is_set environ_PORT then Exited 1 else Done tt.
Proof.
  intros Hfail. unfold main_app, serve_cloud_run, serve_locally, test_local.
  destruct (run_tests_cases history msg_testing_local)
    as [(raw & Hh & Hne & _) | (msg & _ & Htest)].
  - exfalso. apply (provider_not_both history "^GSPC" "1y");
      [exists raw; auto | exact Hfail].
  - rewrite Htest. unfold print, io_ret, exit, events, ends.
    destruct (port_is_set environ_PORT);
      cbn [io_bind fst snd app serve_calls fetch_error_line];
      (split; [reflexivity|]); (split; [|reflexivity]);
      simpl; auto 10.
Qed.

Lemma main_app_without_data_witness :
  provider_failed (provider_of []) "^GSPC" "1y"
  /\ serve_calls (events (main_app (provider_of []) unit (fun _ => Return tt)
                            (Some "8081"%string) (fun _ => Return 8081%Z)))
     = []
  /\ In (Printed (Text msg_tests_failed))
        (events (main_app (provider_of []) unit (fun _ => Return tt)
                   (Some "8081"%string) (fun _ => Return 8081%Z)))
  /\ ends (main_app (provider_of []) unit (fun _ => Return tt)
             (Some "8081"%string) (fun _ => Return 8081%Z))
     = if port_is_set (Some "8081"%string) then Exited 1 else Done tt.
Proof.
  assert (H1 : provider_failed (provider_of []) "^GSPC" "1y").
  { right. exists (fetched []). split; reflexivity. }
  exact (conj H1
    (main_app_without_data (provider_of []) unit (fun _ => Return tt)
       (Some "8081"%string) (fun _ => Return 8081%Z) H1)).
Defined.

Lemma port_is_set_some environ_PORT :
  port_is_set environ_PORT = true ->
  exists text, environ_PORT = Some text /\ text <> ""%string.
Proof.
  unfold port_is_set. destruct environ_PORT as [[|c rest]|]; try discriminate.
  intros _. eexists. split; [reflexivity | discriminate].
Qed.

(** X23.  With data and PORT set, [main.py] runs [serve_cloud_run]: the
    port is [int(PORT)].  If that conversion raises, the program ends with
    this exception and [pn.serve] is not called.  Otherwise [pn.serve] is
    called exactly once, with that port, host "0.0.0.0", [show=False],
    [autoreload=False] and every websocket origin allowed; nothing guards
    the call, so an exception of [pn.serve] ends the program. *)
Theorem main_app_cloud_run history (Server : Type)
        (serve : Panel.ServeArgs -> result Server) environ_PORT int_of_str :
  provider_delivers history "^GSPC" "1y" ->
  port_is_set environ_PORT = true ->
  exists text,
    environ_PORT = Some text
    /\ match int_of_str text with
       | Raise e =>
           ends (main_app history Server serve environ_PORT int_of_str)
           = Raised e
           /\ serve_calls
                (events (main_app history Server serve environ_PORT int_of_str))
              = []
       | Return port =>
           exists dashboard,
             serve_calls
               (events (main_app history Server serve environ_PORT int_of_str))
             = [cloud_run_serve_args dashboard port]
             /\ ends (main_app history Server serve environ_PORT int_of_str)
                = ending_of_serve (serve (cloud_run_serve_args dashboard port))
       end.
Proof.
  intros Hd Hset.
  destruct (port_is_set_some environ_PORT Hset) as (text & -> & _).
  exists text. split; [reflexivity|].
  unfold main_app. rewrite Hset.
  unfold serve_cloud_run, test_local.
  destruct (run_tests_cases history msg_testing_local)
    as [(raw & Hh & Hne & Htest) | (msg & Hfail & _)];
    [|destruct (provider_not_both _ _ _ Hd Hfail)].
  destruct (create_dashboard_app_returns history)
    as (out & dashboard & Happ & Hout).
  rewrite Htest, Happ.
  unfold print, io_ret, of_result, pn_serve, events, ends,
    cloud_run_serve_args, ending_of_serve.
  destruct (int_of_str text) as [port|e]; cbn [io_bind fst snd].
  - exists dashboard.
    destruct (serve _) as [server|e]; cbn [io_bind fst snd];
      (split; [|reflexivity]);
      cbn [app serve_calls]; rewrite !serve_calls_app, Hout; reflexivity.
  - split; reflexivity.
Qed.

Lemma main_app_cloud_run_witness :
  provider_delivers (provider_of three_bars) "^GSPC" "1y"
  /\ port_is_set (Some "8081"%string) = true
  /\ exists dashboard,
       serve_calls
         (events (main_app (provider_of three_bars) unit (fun _ => Return tt)
                    (Some "8081"%string) (fun _ => Return 8081%Z)))
       = [cloud_run_serve_args dashboard 8081]
       /\ ends (main_app (provider_of three_bars) unit (fun _ => Return tt)
                  (Some "8081"%string) (fun _ => Return 8081%Z))
          = Done tt.
Proof.
  assert (H1 : provider_delivers (provider_of three_bars) "^GSPC" "1y").
  { exists (fetched three_bars). split; [reflexivity | discriminate]. }
  assert (H2 : port_is_set (Some "8081"%string) = true) by reflexivity.
  destruct (main_app_cloud_run (provider_of three_bars) unit
              (fun _ => Return tt) (Some "8081"%string)
              (fun _ => Return 8081%Z) H1 H2)
    as (text & _ & dashboard & Hcalls & Hend).
  refine (conj H1 (conj H2 _)).
  exists dashboard. exact (conj Hcalls Hend).
Defined.

(** X24.  With data and PORT not set (or empty), [main.py] runs
    [serve_locally]: [pn.serve] is called exactly once, on port 8080 with
    [show=True] and no host, and nothing guards the call, so an exception
    of [pn.serve] ends the program. *)
Theorem main_app_locally history (Server : Type)
        (serve : Panel.ServeArgs -> result Server) environ_PORT int_of_str :
  provider_delivers history "^GSPC" "1y" ->
  port_is_set environ_PORT = false ->
  exists dashboard,
    serve_calls
      (events (main_app history Server serve environ_PORT int_of_str))
    = [local_serve_args dashboard 8080]
    /\ ends (main_app history Server serve environ_PORT int_of_str)
       = ending_of_serve (serve (local_serve_args dashboard 8080))
    /\ In (Printed (Text (msg_serving_at ++ "8080")))
          (events (main_app history Server serve environ_PORT int_of_str)).
Proof.
  intros Hd Hset. unfold main_app. rewrite Hset.
  unfold serve_locally, test_local.
  destruct (run_tests_cases history msg_testing_local)
    as [(raw & Hh & Hne & Htest) | (msg & Hfail & _)];
    [|destruct (provider_not_both _ _ _ Hd Hfail)].
  destruct (create_dashboard_app_returns history)
    as (out & dashboard & Happ & Hout).
  rewrite Htest, Happ.
  unfold print, io_ret, pn_serve, events, ends, local_serve_args,
    ending_of_serve.
  exists dashboard. cbn [io_bind fst snd].
  destruct (serve _) as [server|e]; cbn [io_bind fst snd];
    (split; [cbn [app serve_calls]; rewrite !serve_calls_app, Hout; reflexivity|]);
    (split; [reflexivity|]);
    cbn [app]; do 6 right; apply in_or_app; right; left; reflexivity.
Qed.

Lemma main_app_locally_witness :
  provider_delivers (provider_of three_bars) "^GSPC" "1y"
  /\ port_is_set None = false
  /\ exists dashboard,
       serve_calls
         (events (main_app (provider_of three_bars) unit (fun _ => Return tt)
                    None (fun _ => Return 0%Z)))
       = [local_serve_args dashboard 8080]
       /\ ends (main_app (provider_of three_bars) unit (fun _ => Return tt)
                  None (fun _ => Return 0%Z))
          = ending_of_serve (Return tt)
       /\ In (Printed (Text (msg_serving_at ++ "8080")))
             (events (main_app (provider_of three_bars) unit
                        (fun _ => Return tt) None (fun _ => Return 0%Z))).
Proof.
  assert (H1 : provider_delivers (provider_of three_bars) "^GSPC" "1y").
  { exists (fetched three_bars). split; [reflexivity | discriminate]. }
  assert (H2 : port_is_set None = false) by reflexivity.
  exact (conj H1 (conj H2
    (main_app_locally (provider_of three_bars) unit (fun _ => Return tt)
       None (fun _ => Return 0%Z) H1 H2))).
Defined.

(** ** Prices in another unit *)

Lemma nth_map_scaled k cs i :
  (i < length cs)%nat ->
  nth i (map (Qmult k) cs) 0 = k * nth i cs 0.
Proof.
  intros Hi.
  rewrite (nth_indep (map (Qmult k) cs) 0 (k * 0)) by (rewrite length_map; lia).
  apply (map_nth (Qmult k)).
Qed.

Lemma weighted_sum_scaled alpha k cs i :
  (i < length cs)%nat ->
  weighted_sum alpha (map (Qmult k) cs) i == k * weighted_sum alpha cs i.
Proof.
  intros Hi. unfold weighted_sum. rewrite <- sigma_scale.
  apply sigma_ext. intros j Hj.
  rewrite nth_map_scaled by lia. ring.
Qed.

Lemma ewm_mean_scaled span k cs i :
  Pandas.alpha_of_span span <= 1 ->
  (i < length cs)%nat ->
  nth i (Pandas.ewm_mean span (map (Qmult k) cs)) 0
  == k * nth i (Pandas.ewm_mean span cs) 0.
Proof.
  intros Ha Hi.
  rewrite (ewm_mean_nth span (map (Qmult k) cs) i Ha)
    by (rewrite length_map; exact Hi).
  rewrite (ewm_mean_nth span cs i Ha Hi).
  unfold cumulative_weighted_average.
  rewrite (weighted_sum_scaled _ k cs i Hi).
  field. apply weight_sum_nonzero, Ha.
Qed.

Lemma daily_return_scaled k cs i :
  (1 <= i < length cs)%nat ->
  ~ k == 0 ->
  ~ nth (i - 1) cs 0 == 0 ->
  daily_return (map (Qmult k) cs) i == daily_return cs i.
Proof.
  intros Hi Hk Hp. unfold daily_return.
  rewrite !nth_map_scaled by lia.
  field. split; assumption.
Qed.

(** X25.  The calculated columns do not depend on the unit of the prices:
    if the closes of a second history are those of the first times a
    factor [k > 0], then every defined return of the second equals the
    return of the first at the same bar, and every moving-average value of
    the second is [k] times that of the first. *)
Theorem price_scaling raw raw' k span i :
  0 < k ->
  positive_closes (rows raw) ->
  col_Close raw' = map (Qmult k) (col_Close raw) ->
  In span [9; 50; 200]%Z ->
  (1 <= i < len raw)%nat ->
  exists r r' ema ema',
    Returns (add_calculated_fields raw) = Some (Pandas.pct_change (col_Close raw))
    /\ Returns (add_calculated_fields raw')
       = Some (Pandas.pct_change (col_Close raw'))
    /\ nth_error (Pandas.pct_change (col_Close raw)) i = Some (Some r)
    /\ nth_error (Pandas.pct_change (col_Close raw')) i = Some (Some r')
    /\ r' == r
    /\ ema_column span (add_calculated_fields raw) = Some ema
    /\ ema_column span (add_calculated_fields raw') = Some ema'
    /\ forall j, (j < len raw)%nat -> nth j ema' 0 == k * nth j ema 0.
Proof.
  intros Hk Hp Hc Hs Hi.
  assert (Hlen : length (col_Close raw) = len raw) by apply length_map.
  assert (Hk0 : ~ k == 0) by (apply Qnot_eq_sym, Qlt_not_eq, Hk).
  assert (Hprev : ~ nth (i - 1) (col_Close raw) 0 == 0).
  { apply Qnot_eq_sym, Qlt_not_eq, positive_closes_nth; [exact Hp|].
    unfold len in Hi. lia. }
  assert (Hprev' : ~ nth (i - 1) (col_Close raw') 0 == 0).
  { rewrite Hc, nth_map_scaled by lia.
    intros E. apply Hprev.
    apply (Qmult_integral k) in E. destruct E; [contradiction | assumption]. }
  destruct (pct_change_nth_error (col_Close raw) i) as (r & Hr & Hv);
    [lia | exact Hprev |].
  destruct (pct_change_nth_error (col_Close raw') i) as (r' & Hr' & Hv');
    [rewrite Hc, length_map; lia | exact Hprev' |].
  exists r, r', (Pandas.ewm_mean (inject_Z span) (col_Close raw)),
         (Pandas.ewm_mean (inject_Z span) (col_Close raw')).
  split; [reflexivity|]. split; [reflexivity|].
  split; [exact Hr|]. split; [exact Hr'|].
  split.
  - rewrite Hv, Hv', Hc. apply daily_return_scaled; [lia | exact Hk0 | exact Hprev].
  - split; [apply ema_column_enriched, Hs|].
    split; [apply ema_column_enriched, Hs|].
    intros j Hj. rewrite Hc. apply ewm_mean_scaled.
    + apply (alpha_of_span_smoothing span Hs).
    + lia.
Qed.

Lemma price_scaling_witness :
  0 < 2
  /\ positive_closes (rows (fetched two_bars))
  /\ col_Close (fetched [bar 1 (2 * 100) 1000; bar 2 (2 * 110) 1200])
     = map (Qmult 2) (col_Close (fetched two_bars))
  /\ In 9%Z [9; 50; 200]%Z
  /\ (1 <= 1 < len (fetched two_bars))%nat
  /\ exists r r' ema ema',
       Returns (add_calculated_fields (fetched two_bars))
       = Some (Pandas.pct_change (col_Close (fetched two_bars)))
       /\ Returns (add_calculated_fields
                     (fetched [bar 1 (2 * 100) 1000; bar 2 (2 * 110) 1200]))
          = Some (Pandas.pct_change
                    (col_Close
                       (fetched [bar 1 (2 * 100) 1000; bar 2 (2 * 110) 1200])))
       /\ nth_error (Pandas.pct_change (col_Close (fetched two_bars))) 1
          = Some (Some r)
       /\ nth_error
            (Pandas.pct_change
               (col_Close
                  (fetched [bar 1 (2 * 100) 1000; bar 2 (2 * 110) 1200]))) 1
          = Some (Some r')
       /\ r' == r
       /\ ema_column 9 (add_calculated_fields (fetched two_bars)) = Some ema
       /\ ema_column 9
            (add_calculated_fields
               (fetched [bar 1 (2 * 100) 1000; bar 2 (2 * 110) 1200]))
          = Some ema'
       /\ forall j, (j < len (fetched two_bars))%nat ->
            nth j ema' 0 == 2 * nth j ema 0.
Proof.
  assert (H1 : 0 < 2) by reflexivity.
  assert (H2 : positive_closes (rows (fetched two_bars))).
  { repeat constructor. }
  assert (H3 : col_Close (fetched [bar 1 (2 * 100) 1000; bar 2 (2 * 110) 1200])
               = map (Qmult 2) (col_Close (fetched two_bars))) by reflexivity.
  assert (H4 : In 9%Z [9; 50; 200]%Z) by (simpl; auto).
  assert (H5 : (1 <= 1 < len (fetched two_bars))%nat) by (vm_compute; lia).
  exact (conj H1 (conj H2 (conj H3 (conj H4 (conj H5
    (price_scaling (fetched two_bars)
       (fetched [bar 1 (2 * 100) 1000; bar 2 (2 * 110) 1200])
       2 9 1 H1 H2 H3 H4 H5)))))).
Defined.
